(** * PTWUnidos: the menu-navigation and command layer of the electrometer driver

    A shallow embedding of [PTWUnidos/PTWUnidos.py].  The driver talks to the
    instrument through one serial resource; every method is a sequence of
    request/reply exchanges, a few console messages and, in two places, a
    polling loop.  The embedding keeps that shape: a method is a computation
    over the state of the serial device that returns a Python result (a value
    or a raised exception) together with the list of observable events it
    caused, in order.  The two [while] loops have no bound in the source;
    here they take a number of passes they may make, and a run that needs
    more ends in [OutOfFuel].

    Covered: [_sendCommand], [getFlags], [getPosition], [getStatus],
    [goToSetupPosition], [setRange], [getVoltage], [setVoltage],
    [getIntegrationTime], [setIntegrationTime], [integrate] and [close];
    then [__init__], [setElectricalUnits], [doNull], [getRange], [getUnit],
    [getCorrections] and [getReading].  Assertions are taken as enabled. *)

From Stdlib Require Import ZArith String Ascii List Bool Lia DecimalString.
Import ListNotations.
Local Open Scope string_scope.
Local Open Scope list_scope.
Local Open Scope Z_scope.

(** ** The Python built-ins the driver relies on *)

Module Py.

(** [str.isspace] on the Latin-1 range: the separators of [str.split()]
    without argument. *)
Definition is_space (c : ascii) : bool :=
  let n := nat_of_ascii c in
  ((9 <=? n) && (n <=? 13) || (28 <=? n) && (n <=? 32)
   || (n =? 133) || (n =? 160))%nat.

(** The characters that [int()] skips around a literal: tab to carriage
    return and the space, and beyond ASCII the next-line and no-break
    space characters; the separators 28 to 31 are not among them. *)
Definition is_int_space (c : ascii) : bool :=
  let n := nat_of_ascii c in
  ((9 <=? n) && (n <=? 13) || (n =? 32) || (n =? 133) || (n =? 160))%nat.

Definition is_digit (c : ascii) : bool :=
  let n := nat_of_ascii c in ((48 <=? n) && (n <=? 57))%nat.

Definition digit_val (c : ascii) : Z := Z.of_nat (nat_of_ascii c - 48).

Fixpoint lstrip (s : string) : string :=
  match s with
  | EmptyString => EmptyString
  | String c s' => if is_int_space c then lstrip s' else s
  end.

Fixpoint rstrip (s : string) : string :=
  match s with
  | EmptyString => EmptyString
  | String c s' =>
      let t := rstrip s' in
      if is_int_space c && (t =? "")%string then EmptyString else String c t
  end.

(** The literal inside the blanks that [int()] skips. *)
Definition strip (s : string) : string := rstrip (lstrip s).

(** Digits of a decimal literal; a single underscore may sit between two
    digits.  [seen] tells whether the previous character was a digit. *)
Fixpoint parse_digits (acc : Z) (seen : bool) (s : string) : option Z :=
  match s with
  | EmptyString => if seen then Some acc else None
  | String c s' =>
      if is_digit c then parse_digits (10 * acc + digit_val c) true s'
      else if (c =? "_")%char && seen then
        match s' with
        | String c' _ => if is_digit c' then parse_digits acc false s' else None
        | EmptyString => None
        end
      else None
  end.

(** [int(s)] for a string argument, base ten; [None] is [ValueError].  The
    bound that the interpreter can be set to put on the number of digits
    ([sys.int_max_str_digits]) is a setting, not modelled here nor in
    [str]. *)
Definition int (s : string) : option Z :=
  match strip s with
  | String "-" t => option_map Z.opp (parse_digits 0 false t)
  | String "+" t => parse_digits 0 false t
  | t => parse_digits 0 false t
  end.

(** [str(n)] and the [{n}] field of an f-string, for an integer. *)
Definition str (n : Z) : string := NilZero.string_of_int (Z.to_int n).

Fixpoint zeros (k : nat) : string :=
  match k with
  | O => EmptyString
  | S k' => String "0" (zeros k')
  end.

Definition pad_left (width : nat) (s : string) : string :=
  (zeros (width - String.length s) ++ s)%string.

(** [s.zfill(width)]: the padding goes after a leading sign. *)
Definition zfill (width : nat) (s : string) : string :=
  match s with
  | String "-" t => String "-" (pad_left (width - 1) t)
  | String "+" t => String "+" (pad_left (width - 1) t)
  | _ => pad_left width s
  end.

Fixpoint bin_pos (p : positive) : string :=
  match p with
  | xH => "1"
  | xO p' => (bin_pos p' ++ "0")%string
  | xI p' => (bin_pos p' ++ "1")%string
  end.

(** The binary digits of the magnitude, as the [b] presentation type. *)
Definition bin_abs (n : Z) : string :=
  match n with
  | Z0 => "0"
  | Zpos p => bin_pos p
  | Zneg p => bin_pos p
  end.

(** [f'{n:08b}']: minimum width eight, zero fill placed after the sign;
    a longer number is written in full. *)
Definition format_08b (n : Z) : string :=
  if n <? 0 then String "-" (pad_left 7 (bin_abs n))
  else pad_left 8 (bin_abs n).

(** [s[i]] for [0 <= i]; [None] is [IndexError]. *)
Definition item (s : string) (i : nat) : option string :=
  match String.get i s with
  | Some c => Some (String c EmptyString)
  | None => None
  end.

(** [s[:-1]]. *)
Fixpoint drop_last (s : string) : string :=
  match s with
  | EmptyString => EmptyString
  | String c EmptyString => EmptyString
  | String c s' => String c (drop_last s')
  end.

(** [s.split()]: maximal runs of non-space characters. *)
Fixpoint split_ws_from (tok s : string) : list string :=
  match s with
  | EmptyString => if (tok =? "")%string then [] else [tok]
  | String c s' =>
      if is_space c then
        if (tok =? "")%string then split_ws_from "" s'
        else tok :: split_ws_from "" s'
      else split_ws_from (tok ++ String c "")%string s'
  end.

Definition split_ws (s : string) : list string := split_ws_from "" s.

(** [s.split(" ")]: every single space separates, empty fields are kept. *)
Fixpoint split_on_from (sep : ascii) (tok s : string) : list string :=
  match s with
  | EmptyString => [tok]
  | String c s' =>
      if (c =? sep)%char then tok :: split_on_from sep "" s'
      else split_on_from sep (tok ++ String c "")%string s'
  end.

Definition split_on (sep : ascii) (s : string) : list string :=
  split_on_from sep "" s.

(** [xs.index(x)] on a list of integers; [None] is [ValueError]. *)
Fixpoint index_from (k : Z) (x : Z) (xs : list Z) : option Z :=
  match xs with
  | [] => None
  | y :: ys => if x =? y then Some k else index_from (k + 1) x ys
  end.

Definition index (x : Z) (xs : list Z) : option Z := index_from 0 x xs.

(** [x in xs] on a list of integers. *)
Definition mem (x : Z) (xs : list Z) : bool := existsb (Z.eqb x) xs.

(** [s in xs] on a list of strings. *)
Definition mem_str (s : string) (xs : list string) : bool :=
  existsb (String.eqb s) xs.

(** [s[-k]] for [1 <= k]; [None] is [IndexError]. *)
Definition item_last (s : string) (k : nat) : option string :=
  if (k <=? String.length s)%nat then item s (String.length s - k) else None.

(** [" ".join(xs)]. *)
Fixpoint join_space (xs : list string) : string :=
  match xs with
  | [] => EmptyString
  | [x] => x
  | x :: xs' => (x ++ String " " (join_space xs'))%string
  end.

End Py.

(** ** Results, events and the serial resource *)

Inductive exn : Type :=
| AssertionError (msg : string)
| ValueError
| IndexError
| UnboundLocalError
| OverflowError
| VisaIOError.

(** What a run does that an observer of the bench can see. *)
Inductive event : Type :=
| EvQuery (command : string) (response : option string)
| EvWrite (data : string)
| EvReadRaw (response : option string)
| EvPrint (line : string)
| EvSleep (seconds : Z)
| EvClose.

(** How a run ends: with a value, with an exception, or cut short because
    a loop wanted more passes than it was given. *)
Inductive result (A : Type) : Type :=
| Ok (a : A)
| Raise (e : exn)
| OutOfFuel.

Arguments Ok {A} a.
Arguments Raise {A} e.
Arguments OutOfFuel {A}.

(** The pyvisa resource held in [self.serial].  A [None] answer is the
    transport error pyvisa raises when no reply arrives within the timeout. *)
Class Serial (Dev : Type) : Type := {
  query : Dev -> string -> option string * Dev;
  write : Dev -> string -> Dev;
  read_raw : Dev -> option string * Dev;
}.

(** A finished run: its result, the device as it is left, and the log. *)
Record outcome (Dev A : Type) : Type := mkOutcome {
  res : result A;
  dev : Dev;
  trace : list event;
}.

Arguments mkOutcome {Dev A} res dev trace.
Arguments res {Dev A} o.
Arguments dev {Dev A} o.
Arguments trace {Dev A} o.

Definition M (Dev A : Type) : Type := Dev -> outcome Dev A.

Definition ret {Dev A} (a : A) : M Dev A :=
  fun d => mkOutcome (Ok a) d [].

Definition raise {Dev A} (e : exn) : M Dev A :=
  fun d => mkOutcome (Raise e) d [].

Definition out_of_fuel {Dev A} : M Dev A :=
  fun d => mkOutcome OutOfFuel d [].

Definition bind {Dev A B} (m : M Dev A) (k : A -> M Dev B) : M Dev B :=
  fun d =>
    let o := m d in
    match res o with
    | Ok a =>
        let o' := k a (dev o) in
        mkOutcome (res o') (dev o') (trace o ++ trace o')
    | Raise e => mkOutcome (Raise e) (dev o) (trace o)
    | OutOfFuel => mkOutcome OutOfFuel (dev o) (trace o)
    end.

Declare Scope py_scope.
Delimit Scope py_scope with py.
Notation "x <- m ;; k" := (bind m (fun x => k))
  (at level 61, m at next level, right associativity) : py_scope.
Notation "m ;; k" := (bind m (fun _ => k))
  (at level 61, right associativity) : py_scope.
Local Open Scope py_scope.

Definition emit {Dev} (e : event) : M Dev unit :=
  fun d => mkOutcome (Ok tt) d [e].

Definition print {Dev} (line : string) : M Dev unit := emit (EvPrint line).

(** The longest sleep, in seconds, that fits the interpreter's time type,
    a signed 64-bit count of nanoseconds. *)
Definition sleep_max : Z := (2 ^ 63 - 1) / 10 ^ 9.

(** [time.sleep(seconds)] for an integer: the length is converted first,
    which raises [OverflowError] when it does not fit, then refused with
    [ValueError] when negative.  A length so close to [sleep_max] that the
    deadline, the clock plus the length, no longer fits is left to the
    operating system, which may refuse it; that is not modelled. *)
Definition sleep {Dev} (seconds : Z) : M Dev unit :=
  if (seconds <? - sleep_max) || (sleep_max <? seconds) then raise OverflowError
  else if seconds <? 0 then raise ValueError
  else emit (EvSleep seconds).

Definition assert_ {Dev} (b : bool) (msg : string) : M Dev unit :=
  if b then ret tt else raise (AssertionError msg).

(** A Python operation that may raise [e]. *)
Definition try_ {Dev A} (e : exn) (x : option A) : M Dev A :=
  match x with
  | Some a => ret a
  | None => raise e
  end.

(** [body] run [n] times, as in [[body for i in range(n)]]. *)
Fixpoint times {Dev} (n : nat) (body : M Dev unit) : M Dev unit :=
  match n with
  | O => ret tt
  | S n' => body ;; times n' body
  end.

(** The commands written to the instrument, in order. *)
Fixpoint sent (t : list event) : list string :=
  match t with
  | [] => []
  | EvQuery c _ :: t' => c :: sent t'
  | EvWrite c :: t' => c :: sent t'
  | _ :: t' => sent t'
  end.

(** Whether the serial resource was closed. *)
Definition released (t : list event) : bool :=
  existsb (fun e => match e with EvClose => true | _ => false end) t.

(** What one answered [_sendCommand] puts in the log: the exchange and, when
    the cross-check fails, the console message. *)
Definition exchange (command : string) (crossCheck : bool) (r : string)
  : list event :=
  EvQuery command (Some r)
  :: (if negb (r =? command)%string && crossCheck
      then [EvPrint ("Error sending command: " ++ command)%string] else []).

(** ** The driver *)

(** An argument that Python does not force to be an integer: an [int], or
    an object of another type (a float, a bool, a string, ...) given by the
    text an f-string shows for it. *)
Inductive pyobj : Type :=
| PyInt (n : Z)
| PyOther (shown : string).

Section Driver.

Context {Dev : Type} `{Serial Dev}.

(** The charge is returned as a Python float; its type and the conversion
    [float(s)] ([None] is [ValueError]) are left abstract. *)
Variable Float : Type.
Variable float : string -> option Float.

(** [self.serial.query(command)]. *)
Definition serial_query (command : string) : M Dev string :=
  fun d =>
    match query d command with
    | (Some r, d') => mkOutcome (Ok r) d' [EvQuery command (Some r)]
    | (None, d') => mkOutcome (Raise VisaIOError) d' [EvQuery command None]
    end.

(** [self.serial.write(data)]. *)
Definition serial_write (data : string) : M Dev unit :=
  fun d => mkOutcome (Ok tt) (write d data) [EvWrite data].

(** [self.serial.read_raw().decode("latin1")]. *)
Definition serial_read_raw : M Dev string :=
  fun d =>
    match read_raw d with
    | (Some r, d') => mkOutcome (Ok r) d' [EvReadRaw (Some r)]
    | (None, d') => mkOutcome (Raise VisaIOError) d' [EvReadRaw None]
    end.

(** [self.serial.close()]. *)
Definition serial_close : M Dev unit := emit EvClose.

Definition _sendCommand (command : string) (crossCheck : bool) : M Dev string :=
  response <- serial_query command ;;
  (if negb (response =? command)%string && crossCheck
   then print ("Error sending command: " ++ command)%string
   else ret tt) ;;
  ret response.

Definition listOfVoltages : list Z :=
  [0; 50; 100; 150; 200; 250; 300; 350; 400].

Definition getFlags : M Dev string :=
  r <- _sendCommand "?F" false ;;
  response <- try_ ValueError (Py.int r) ;;
  ret (Py.format_08b response).

Definition getPosition : M Dev string := _sendCommand "?W" false.

Definition getStatus : M Dev string := _sendCommand "?S" false.

(** The body of the loop of [goToSetupPosition], up to the new position
    query: the move chosen for the reported position [r]. *)
Definition setup_move (r : string) : M Dev unit :=
  if (2 <? String.length r)%nat then _sendCommand "C" true ;; ret tt
  else
    r0 <- try_ IndexError (Py.item r 0) ;;
    if negb (r0 =? "0")%string then _sendCommand "M0" true ;; ret tt
    else
      r1 <- try_ IndexError (Py.item r 1) ;;
      if negb (r1 =? "0")%string then _sendCommand "U" true ;; ret tt
      else ret tt.

(** [while r != "00": ...], with [fuel] bounding the number of passes. *)
Fixpoint setup_loop (fuel : nat) (r : string) : M Dev unit :=
  if (r =? "00")%string then ret tt
  else
    match fuel with
    | O => out_of_fuel
    | S fuel' =>
        setup_move r ;;
        r' <- getPosition ;;
        setup_loop fuel' r'
    end.

Definition goToSetupPosition (fuel : nat) : M Dev unit :=
  r <- getPosition ;;
  setup_loop fuel r.

Definition setRange (range : string) : M Dev unit :=
  assert_ (Py.mem_str range ["Low"; "Medium"; "High"]) "Range not recognised" ;;
  let x : option Z := None in
  let x := if (range =? "Low")%string || (range =? "low")%string
           then Some 0 else x in
  let x := if (range =? "Medium")%string || (range =? "medium")%string
           then Some 1 else x in
  let x := if (range =? "High")%string || (range =? "high")%string
           then Some 2 else x in
  x <- try_ UnboundLocalError x ;;
  _sendCommand ("R" ++ Py.str x)%string true ;;
  ret tt.

Definition getVoltage (fuel : nat) (goToSetup : bool) : M Dev Z :=
  goToSetupPosition fuel ;;
  _sendCommand "D" true ;;
  _sendCommand "E" true ;;
  _sendCommand "D" true ;;
  _sendCommand "E" true ;;
  aValue <- _sendCommand "V" false ;;
  (if goToSetup then goToSetupPosition fuel else ret tt) ;;
  token <- try_ IndexError (nth_error (Py.split_ws aValue) 0) ;;
  try_ ValueError (Py.int token).

(** Lines 284 and 285 of [setVoltage]: the stepping. *)
Definition setVoltage_step (move : Z) : M Dev unit :=
  (if 0 <? move
   then times (Z.to_nat move) (_sendCommand "U" true ;; ret tt)
   else ret tt) ;;
  (if move <? 0
   then times (Z.to_nat (- move)) (_sendCommand "D" true ;; ret tt)
   else ret tt).

(** Lines 287 to 294 of [setVoltage]: the read-back and the confirmation. *)
Definition setVoltage_check (voltage : Z) : M Dev unit :=
  r <- _sendCommand "V" false ;;
  token <- try_ IndexError (nth_error (Py.split_ws r) 0) ;;
  n <- try_ ValueError (Py.int token) ;;
  if negb (voltage =? n)
  then print "Error setting the requested voltage, operation aborted."
  else
    response <- _sendCommand "E" false ;;
    if negb (response =? "E")%string
    then _sendCommand "G" false ;; ret tt
    else ret tt.

Definition setVoltage (fuel : nat) (voltage : Z) : M Dev unit :=
  assert_ (Py.mem voltage listOfVoltages)
          (Py.str voltage ++ " V is not a valid value of voltage")%string ;;
  aVoltage <- getVoltage fuel false ;;
  currentVoltageIndex <- try_ ValueError (Py.index aVoltage listOfVoltages) ;;
  newVoltageIndex <- try_ ValueError (Py.index voltage listOfVoltages) ;;
  let move := newVoltageIndex - currentVoltageIndex in
  setVoltage_step move ;;
  setVoltage_check voltage ;;
  goToSetupPosition fuel.

Definition getIntegrationTime (fuel : nat) (goToSetup : bool) : M Dev Z :=
  goToSetupPosition fuel ;;
  _sendCommand "E" true ;;
  _sendCommand "E" true ;;
  aValue <- _sendCommand "V" false ;;
  (if goToSetup then goToSetupPosition fuel else ret tt) ;;
  try_ ValueError (Py.int aValue).

Definition setIntegrationTime (fuel : nat) (integrationTime : pyobj)
  : M Dev unit :=
  match integrationTime with
  | PyOther shown =>
      (* [type(integrationTime) is int] is false *)
      raise (AssertionError
               (shown ++ " s is not a valid value of integration time")%string)
  | PyInt t =>
      assert_ ((6 <=? t) && (t <=? 9999))
              (Py.str t ++ " s is not a valid value of integration time")%string ;;
      goToSetupPosition fuel ;;
      _sendCommand "E" true ;;
      _sendCommand "E" true ;;
      _sendCommand (Py.zfill 4 (Py.str t)) true ;;
      _sendCommand "E" true ;;
      r <- _sendCommand "V" false ;;
      n <- try_ ValueError (Py.int r) ;;
      if negb (t =? n)
      then print "Error setting the integration time, operation aborted."
      else ret tt
  end.

(** [while self.getStatus() == status: time.sleep(pause)]. *)
Fixpoint wait_while (fuel : nat) (status : string) (pause : Z) : M Dev unit :=
  s <- getStatus ;;
  if (s =? status)%string then
    match fuel with
    | O => out_of_fuel
    | S fuel' => sleep pause ;; wait_while fuel' status pause
    end
  else ret tt.

(** Lines 380 to 400 of [integrate]: the measurement proper.  The unused
    [start = time.time()] is left out. *)
Definition integrate_measure (fuel : nat) : M Dev Float :=
  integrationTime <- getIntegrationTime fuel true ;;
  _sendCommand "I" true ;;
  sleep (integrationTime + 1) ;;
  wait_while fuel "INT" 1 ;;
  serial_write "V" ;;
  raw <- serial_read_raw ;;
  let results := Py.split_on " " raw in
  let validResults :=
    filter (fun value => (1 <? String.length value)%nat) results in
  first <- try_ IndexError (nth_error validResults 0) ;;
  let iTime := Py.drop_last first in
  n <- try_ ValueError (Py.int iTime) ;;
  (if negb (n =? integrationTime)
   then print "Integration time missmatch" else ret tt) ;;
  second <- try_ IndexError (nth_error validResults 1) ;;
  try_ ValueError (float second).

Definition integrate (fuel : nat) : M Dev Float :=
  r <- getPosition ;;
  r0 <- try_ IndexError (Py.item r 0) ;;
  (if negb (r0 =? "00")%string then goToSetupPosition fuel else ret tt) ;;
  integrate_measure fuel.

Definition close : M Dev unit :=
  _sendCommand "T1" true ;;
  serial_close.

End Driver.

(** ** The remaining methods *)

Section Session.

Context {Dev : Type} `{Serial Dev}.

Definition setElectricalUnits (fuel : nat) : M Dev unit :=
  flags <- getFlags ;;
  unit_flag <- try_ IndexError (Py.item_last flags 3) ;;
  if (unit_flag =? "1")%string then
    goToSetupPosition fuel ;;
    _sendCommand "E" true ;;
    _sendCommand "D" true ;;
    _sendCommand "E" true ;;
    _sendCommand "U" true ;;
    _sendCommand "E" true ;;
    flags' <- getFlags ;;
    unit_flag' <- try_ IndexError (Py.item_last flags' 3) ;;
    (if (unit_flag' =? "1")%string
     then print "Electrical units not set correctly" else ret tt) ;;
    goToSetupPosition fuel
  else ret tt.

(** [doNull]; [fuel] bounds the passes of its polling loop. *)
Definition doNull (fuel : nat) : M Dev unit :=
  _sendCommand "N" false ;;
  sleep 75 ;;
  wait_while fuel "NUL" 5.

(** The [for] loop of [getRange]: the first string longer than one
    character, the empty string when there is none. *)
Fixpoint first_long (strings : list string) : string :=
  match strings with
  | [] => EmptyString
  | string :: strings' =>
      if (1 <? String.length string)%nat then string else first_long strings'
  end.

Definition getRange : M Dev (string * string) :=
  response <- _sendCommand "?R" false ;;
  let splitResponse := Py.split_on " " response in
  let range := first_long splitResponse in
  third <- try_ IndexError (nth_error splitResponse 2) ;;
  fourth <- try_ IndexError (nth_error splitResponse 3) ;;
  ret (range, (third ++ " " ++ fourth ++ "C")%string).

Definition getUnit : M Dev string := _sendCommand "?U" false.

Definition getCorrections : M Dev string := _sendCommand "?C" false.

Definition getReading : M Dev (list string) :=
  r <- _sendCommand "V" false ;;
  ret (Py.split_on " " r).

(** [__init__], from the identification on: [Dev] is the resource as
    [open_resource] returns it, with the serial settings applied.  The
    result is the pair of attributes [version] and [serNo], which are set
    only for an instrument that identifies itself as "UNIDOS". *)
Definition __init__ (fuel : nat) : M Dev (option (string * string)) :=
  r <- _sendCommand "PTW" false ;;
  family <- try_ IndexError (nth_error (Py.split_on " " r) 0) ;;
  attributes <-
    (if (family =? "UNIDOS")%string then
       r' <- _sendCommand "PTW" false ;;
       version <- try_ IndexError (nth_error (Py.split_on " " r') 1) ;;
       serNo <- _sendCommand "SER" false ;;
       print ("PTW " ++ version ++ " electrometer. Serial number: " ++ serNo)%string ;;
       ret (Some (version, serNo))
     else
       print "This is not an UNIDOS electrometer" ;;
       ret None) ;;
  setElectricalUnits fuel ;;
  ret attributes.

End Session.

(** ** Test doubles for the instrument *)

(** A replayed session: the replies are taken from a script, in order; once
    the script is exhausted the instrument echoes what it is sent. *)
Module Replay.

Definition t : Type := list string.

#[global] Instance serial : Serial t := {
  query d command :=
    match d with
    | [] => (Some command, [])
    | r :: d' => (Some r, d')
    end;
  write d _ := d;
  read_raw d :=
    match d with
    | [] => (Some EmptyString, [])
    | r :: d' => (Some r, d')
    end;
}.

End Replay.

(** An instrument that is switched off: every exchange times out. *)
Module Silent.

Definition t : Type := unit.

#[global] Instance serial : Serial t := {
  query d _ := (None, d);
  write d _ := d;
  read_raw d := (None, d);
}.

End Silent.

(** Modelled from the spec: the simulated device of the navigation property,
    which "moves 1 level per issued command".  The instrument itself is not
    part of the repository.  The cursor is a top-level digit, a second digit
    and the path below them; the reported position code spells these digits.
    Cancel leaves one submenu, "M0" jumps to top-level zero, "U" and "D" move
    the top-level cursor by one entry, "E" enters a submenu.  A digit string
    is kept as the value of the open field and "V" reads it back. *)
Module Sim.

Record t : Type := mk {
  top : nat;
  sub : nat;
  deep : list nat;
  value : string;
}.

Definition digit (n : nat) : string :=
  String (ascii_of_nat (48 + n)) EmptyString.

Fixpoint digits (ns : list nat) : string :=
  match ns with
  | [] => EmptyString
  | n :: ns' => (digit n ++ digits ns')%string
  end.

Definition code (s : t) : string :=
  (digit (top s) ++ digit (sub s) ++ digits (deep s))%string.

Fixpoint all_digits (s : string) : bool :=
  match s with
  | EmptyString => true
  | String c s' => Py.is_digit c && all_digits s'
  end.

Definition step (s : t) (command : string) : t :=
  if (command =? "C")%string then mk (top s) (sub s) (removelast (deep s)) (value s)
  else if (command =? "M0")%string then mk 0 (sub s) (deep s) (value s)
  else if (command =? "U")%string then
    match deep s with
    | [] => mk (top s) (pred (sub s)) [] (value s)
    | _ => s
    end
  else if (command =? "D")%string then
    match deep s with
    | [] => mk (top s) (if (sub s <? 9)%nat then S (sub s) else sub s) [] (value s)
    | _ => s
    end
  else if (command =? "E")%string then mk (top s) (sub s) (deep s ++ [0%nat]) (value s)
  else if all_digits command && negb (command =? "")%string
       then mk (top s) (sub s) (deep s) command
  else s.

Definition reply (s : t) (command : string) : string :=
  if (command =? "?W")%string then code s
  else if (command =? "V")%string then value s
  else command.

#[global] Instance serial : Serial t := {
  query s command := (Some (reply s command), step s command);
  write s _ := s;
  read_raw s := (Some (value s), s);
}.

Definition root : t := mk 0 0 [] "0".

Definition wf (s : t) : Prop :=
  (top s <= 9)%nat /\ (sub s <= 9)%nat /\ Forall (fun n => (n <= 9)%nat) (deep s).

(** The states the simulated instrument can be driven into from the root. *)
Inductive reachable : t -> Prop :=
| reach_root : reachable root
| reach_step s command : reachable s -> reachable (step s command).

(** The number of moves that separate a position from the root. *)
Definition distance (s : t) : nat :=
  (List.length (deep s) + (if (top s =? 0)%nat then 0 else 1) + sub s)%nat.

End Sim.

(** A device that always answers. *)
Definition responsive (Dev : Type) `{Serial Dev} : Prop :=
  forall d command, exists r d', query d command = (Some r, d').

(** The number that a string of binary digits spells, most significant digit
    first; [None] when a character is not a binary digit. *)
Fixpoint bits_from (acc : Z) (s : string) : option Z :=
  match s with
  | EmptyString => Some acc
  | String c s' =>
      if (c =? "0")%char then bits_from (2 * acc) s'
      else if (c =? "1")%char then bits_from (2 * acc + 1) s'
      else None
  end.

Definition bits_value (s : string) : option Z := bits_from 0 s.

(** The declared domain of [setIntegrationTime]. *)
Definition valid_integration_time (x : pyobj) : Prop :=
  match x with
  | PyInt t => 6 <= t <= 9999
  | PyOther _ => False
  end.

(** What follows the read-back "V": the error message when the first token
    of the reply is another number than the one asked for, the confirmation
    "E" when it is that number, nothing when there is no such number. *)
Definition after_read_back (voltage : Z) (r : string) (rest : list event)
  : Prop :=
  match nth_error (Py.split_ws r) 0 with
  | Some token =>
      match Py.int token with
      | Some n =>
          if voltage =? n
          then exists answer rest',
              rest = EvQuery "E" (Some answer) :: rest'
          else exists rest',
              rest
              = EvPrint "Error setting the requested voltage, operation aborted."
                  :: rest'
      | None => rest = []
      end
  | None => rest = []
  end.

(** The log of a polling loop that asked for the status [k] times with the
    answer [status], sleeping [pause] seconds after each, and then got the
    answer [s]. *)
Fixpoint polls (status : string) (pause : Z) (k : nat) (s : string)
  : list event :=
  match k with
  | O => [EvQuery "?S" (Some s)]
  | S k' =>
      EvQuery "?S" (Some status) :: EvSleep pause :: polls status pause k' s
  end.

(** The seconds slept in a log. *)
Fixpoint slept (t : list event) : Z :=
  match t with
  | [] => 0
  | EvSleep n :: t' => n + slept t'
  | _ :: t' => slept t'
  end.

(** The lines printed on the console in a log, in order. *)
Fixpoint console (t : list event) : list string :=
  match t with
  | [] => []
  | EvPrint l :: t' => l :: console t'
  | _ :: t' => console t'
  end.

(** The number of spaces of a string. *)
Fixpoint spaces (s : string) : nat :=
  match s with
  | EmptyString => O
  | String c s' => ((if (c =? " ")%char then 1 else 0) + spaces s')%nat
  end.

(** * Properties *)

(** ** The event log of sequenced computations *)

Lemma sent_app (t1 t2 : list event) : sent (t1 ++ t2) = sent t1 ++ sent t2.
Proof.
  induction t1 as [|e t1 IH]; simpl; [reflexivity|].
  destruct e; simpl; rewrite ?IH; reflexivity.
Qed.

Section Sequencing.

Context {Dev : Type} `{Serial Dev}.

Lemma bind_ok {A B} (m : M Dev A) (k : A -> M Dev B) d a d1 t1 :
  m d = mkOutcome (Ok a) d1 t1 ->
  bind m k d = mkOutcome (res (k a d1)) (dev (k a d1)) (t1 ++ trace (k a d1)).
Proof. intros E. unfold bind. rewrite E. reflexivity. Qed.

Lemma bind_raise {A B} (m : M Dev A) (k : A -> M Dev B) d e d1 t1 :
  m d = mkOutcome (Raise e) d1 t1 ->
  bind m k d = mkOutcome (Raise e) d1 t1.
Proof. intros E. unfold bind. rewrite E. reflexivity. Qed.

Lemma bind_ret_l {A B} (a : A) (k : A -> M Dev B) d :
  bind (ret a) k d = k a d.
Proof. unfold bind, ret. simpl. destruct (k a d); reflexivity. Qed.

Lemma bind_try_some {A B} e (x : option A) a (k : A -> M Dev B) d :
  x = Some a -> bind (try_ e x) k d = k a d.
Proof. intros ->. apply bind_ret_l. Qed.

Lemma bind_assoc {A B C} (m : M Dev A) (k : A -> M Dev B) (k' : B -> M Dev C) d :
  bind (bind m k) k' d = bind m (fun a => bind (k a) k') d.
Proof.
  unfold bind. destruct (m d) as [[a|e|] d1 t1]; simpl; try reflexivity.
  destruct (k a d1) as [[b|e|] d2 t2]; simpl; try reflexivity.
  now rewrite app_assoc.
Qed.

Lemma bind_ext {A B} (m : M Dev A) (k k' : A -> M Dev B) d :
  (forall a d', k a d' = k' a d') -> bind m k d = bind m k' d.
Proof.
  intros E. unfold bind. destruct (res (m d)); [|reflexivity|reflexivity].
  now rewrite E.
Qed.

Lemma bind_ok_inv {A B} (m : M Dev A) (k : A -> M Dev B) d b :
  res (bind m k d) = Ok b ->
  exists a,
    res (m d) = Ok a /\
    res (k a (dev (m d))) = Ok b /\
    trace (bind m k d) = trace (m d) ++ trace (k a (dev (m d))).
Proof.
  unfold bind. destruct (res (m d)) as [a|e|] eqn:E; simpl; try discriminate.
  intros R. exists a. repeat split; assumption.
Qed.

(** The commands of a sequence, whether or not its first part returns. *)
Lemma sent_bind {A B} (m : M Dev A) (k : A -> M Dev B) d :
  sent (trace (bind m k d))
  = sent (trace (m d))
    ++ match res (m d) with
       | Ok a => sent (trace (k a (dev (m d))))
       | _ => []
       end.
Proof.
  unfold bind. destruct (res (m d)); simpl.
  - apply sent_app.
  - now rewrite app_nil_r.
  - now rewrite app_nil_r.
Qed.

(** The commands of a sequence that returns are those of its parts. *)
Lemma sent_bind_ok {A B} (m : M Dev A) (k : A -> M Dev B) d b :
  res (bind m k d) = Ok b ->
  exists a,
    res (m d) = Ok a /\
    res (k a (dev (m d))) = Ok b /\
    sent (trace (bind m k d))
    = sent (trace (m d)) ++ sent (trace (k a (dev (m d)))).
Proof.
  intros R. destruct (bind_ok_inv _ _ _ _ R) as [a [Ra [Rk T]]].
  exists a. rewrite T, sent_app. repeat split; assumption.
Qed.

Lemma sent_try_ {A} e (x : option A) (d : Dev) : sent (trace (try_ e x d)) = [].
Proof. destruct x; reflexivity. Qed.

(** The trace of a sequence starts with the trace of its first part. *)
Lemma bind_trace_prefix {A B} (m : M Dev A) (k : A -> M Dev B) d :
  exists t, trace (bind m k d) = trace (m d) ++ t.
Proof.
  unfold bind. destruct (res (m d)); simpl.
  - eexists; reflexivity.
  - exists []. now rewrite app_nil_r.
  - exists []. now rewrite app_nil_r.
Qed.

Lemma sendCommand_answered command crossCheck d r d' :
  query d command = (Some r, d') ->
  _sendCommand command crossCheck d
  = mkOutcome (Ok r) d' (exchange command crossCheck r).
Proof.
  intros Q. unfold _sendCommand, bind, serial_query, exchange. rewrite Q. simpl.
  destruct (negb (r =? command)%string && crossCheck); reflexivity.
Qed.

Lemma sendCommand_timeout command crossCheck d d' :
  query d command = (None, d') ->
  _sendCommand command crossCheck d
  = mkOutcome (Raise VisaIOError) d' [EvQuery command None].
Proof.
  intros Q. unfold _sendCommand, bind, serial_query. rewrite Q. reflexivity.
Qed.

Lemma sent_exchange command crossCheck r :
  sent (exchange command crossCheck r) = [command].
Proof.
  unfold exchange. destruct (negb (r =? command)%string && crossCheck); reflexivity.
Qed.

(** An exchange writes its command and nothing else, answered or not. *)
Lemma sent_sendCommand command crossCheck d :
  sent (trace (_sendCommand command crossCheck d)) = [command].
Proof.
  destruct (query d command) as [[r|] d'] eqn:Q.
  - rewrite (sendCommand_answered _ _ _ _ _ Q). apply sent_exchange.
  - rewrite (sendCommand_timeout _ _ _ _ Q). reflexivity.
Qed.

End Sequencing.

(** ** Navigation to the setup position: the move chosen for a position *)

Section Navigation.

Context {Dev : Type} `{Serial Dev}.

Lemma sent_then_ret (command : string) d :
  sent (trace (bind (_sendCommand command true) (fun _ => ret (Dev:=Dev) tt) d))
  = [command].
Proof.
  unfold bind.
  pose proof (sent_sendCommand command true d) as E.
  destruct (_sendCommand command true d) as [[a|e|] d1 t1]; simpl in *;
    rewrite ?app_nil_r; exact E.
Qed.

Lemma sent_setup_move_deep r d :
  (2 < String.length r)%nat -> sent (trace (setup_move r d)) = ["C"].
Proof.
  intros L. unfold setup_move. apply Nat.ltb_lt in L. rewrite L.
  apply sent_then_ret.
Qed.

Lemma sent_setup_move_top c0 c1 d :
  c0 <> "0"%char ->
  sent (trace (setup_move (String c0 (String c1 "")) d)) = ["M0"].
Proof.
  intros N. unfold setup_move. unfold bind at 1. simpl.
  destruct (Ascii.eqb_spec c0 "0"%char) as [E|_]; [contradiction|]. simpl.
  apply sent_then_ret.
Qed.

Lemma sent_setup_move_sub c1 d :
  c1 <> "0"%char ->
  sent (trace (setup_move (String "0" (String c1 "")) d)) = ["U"].
Proof.
  intros N. unfold setup_move. unfold bind at 1. simpl.
  unfold bind at 1. simpl.
  destruct (Ascii.eqb_spec c1 "0"%char) as [E|_]; [contradiction|]. simpl.
  apply sent_then_ret.
Qed.

Lemma exchange_unchecked command r :
  exchange command false r = [EvQuery command (Some r)].
Proof. unfold exchange. now rewrite andb_false_r. Qed.

Lemma getPosition_answered d r d' :
  query d "?W" = (Some r, d') ->
  getPosition d = mkOutcome (Ok r) d' [EvQuery "?W" (Some r)].
Proof.
  intros Q. unfold getPosition.
  rewrite (sendCommand_answered _ _ _ _ _ Q). now rewrite exchange_unchecked.
Qed.

Lemma setup_loop_root fuel d :
  setup_loop fuel "00" d = mkOutcome (Ok tt) d [].
Proof. destruct fuel; reflexivity. Qed.

Lemma setup_loop_pass fuel r :
  r <> "00" ->
  setup_loop (S fuel) r
  = bind (setup_move r)
         (fun _ => bind getPosition (fun r' => setup_loop fuel r')).
Proof.
  intros N. simpl. apply String.eqb_neq in N. now rewrite N.
Qed.

End Navigation.

(** C1, as amended.  For a reported position of exactly two characters whose
    first is the digit zero and whose second is not, the move issued by the
    loop of [goToSetupPosition] is the single command "U": it is what follows
    the position query in the commands of [goToSetupPosition]. *)
Theorem setup_move_zero_then_nonzero_steps_up
  {Dev : Type} `{Serial Dev} (c : ascii) (d0 d : Dev) (fuel : nat) :
  c <> "0"%char ->
  query d0 "?W" = (Some (String "0" (String c "")), d) ->
  sent (trace (setup_move (String "0" (String c "")) d)) = ["U"] /\
  exists rest,
    sent (trace (goToSetupPosition (S fuel) d0)) = "?W" :: "U" :: rest.
Proof.
  intros N Q. split; [now apply sent_setup_move_sub|].
  unfold goToSetupPosition.
  rewrite (bind_ok _ _ _ _ _ _ (getPosition_answered _ _ _ Q)).
  cbn [trace].
  rewrite setup_loop_pass by congruence.
  destruct (bind_trace_prefix (setup_move (String "0" (String c "")))
              (fun _ => bind getPosition (fun r' => setup_loop fuel r')) d)
    as [t E].
  rewrite E. cbn [app sent]. rewrite sent_app, sent_setup_move_sub by exact N.
  eexists. reflexivity.
Qed.

Lemma setup_move_zero_then_nonzero_steps_up_witness :
  "1"%char <> "0"%char /\
  query (Sim.mk 0 1 [] "0") "?W" = (Some "01", Sim.mk 0 1 [] "0") /\
  sent (trace (setup_move "01" (Sim.mk 0 1 [] "0"))) = ["U"] /\
  exists rest,
    sent (trace (goToSetupPosition 1 (Sim.mk 0 1 [] "0"))) = "?W" :: "U" :: rest.
Proof.
  split; [discriminate|]. split; [reflexivity|].
  apply (setup_move_zero_then_nonzero_steps_up
           "1"%char (Sim.mk 0 1 [] "0") (Sim.mk 0 1 [] "0") 0);
    [discriminate | reflexivity].
Defined.

(** C1, as stated, fails: at position "01" the command issued is not "D". *)
Lemma setup_move_zero_then_nonzero_not_down :
  sent (trace (setup_move "01" (Sim.mk 0 1 [] "0"))) <> ["D"].
Proof. vm_compute. discriminate. Qed.

(** ** The flags byte *)

Lemma bits_from_app acc s1 s2 :
  bits_from acc (s1 ++ s2)%string
  = match bits_from acc s1 with
    | Some a => bits_from a s2
    | None => None
    end.
Proof.
  revert acc. induction s1 as [|c s1 IH]; intros acc; simpl; [reflexivity|].
  destruct (c =? "0")%char; [apply IH|].
  destruct (c =? "1")%char; [apply IH|reflexivity].
Qed.

Lemma bits_value_bin_pos p : bits_value (Py.bin_pos p) = Some (Zpos p).
Proof.
  unfold bits_value.
  induction p as [p IH|p IH|]; simpl; [| |reflexivity];
    rewrite bits_from_app, IH; reflexivity.
Qed.

Lemma bits_value_pad_left width s :
  bits_value (Py.pad_left width s) = bits_value s.
Proof.
  unfold bits_value, Py.pad_left.
  induction (width - String.length s)%nat as [|k IH]; simpl; [reflexivity|].
  exact IH.
Qed.

Lemma bits_value_format_08b n :
  0 <= n -> bits_value (Py.format_08b n) = Some n.
Proof.
  intros Hn. unfold Py.format_08b.
  destruct (Z.ltb_spec n 0) as [L|_]; [lia|].
  rewrite bits_value_pad_left.
  destruct n as [|p|p]; [reflexivity|apply bits_value_bin_pos|lia].
Qed.

Lemma length_format_08b_byte n :
  0 <= n <= 255 -> String.length (Py.format_08b n) = 8%nat.
Proof.
  intros Hn.
  assert (A : forallb (fun k => (String.length (Py.format_08b (Z.of_nat k))
                                 =? 8)%nat) (seq 0 256) = true)
    by (vm_compute; reflexivity).
  rewrite forallb_forall in A.
  specialize (A (Z.to_nat n)).
  rewrite Z2Nat.id in A by lia.
  apply Nat.eqb_eq, A, in_seq. lia.
Qed.

Section Flags.

Context {Dev : Type} `{Serial Dev}.

Lemma getFlags_answered d s d' n :
  query d "?F" = (Some s, d') ->
  Py.int s = Some n ->
  getFlags d = mkOutcome (Ok (Py.format_08b n)) d' [EvQuery "?F" (Some s)].
Proof.
  intros Q P. unfold getFlags.
  rewrite (bind_ok _ _ _ _ _ _ (sendCommand_answered _ false _ _ _ Q)).
  rewrite exchange_unchecked, P. reflexivity.
Qed.

End Flags.

(** C3, as amended.  When the reply to "?F" reads as an integer [n] with
    [0 <= n <= 255], [getFlags] returns a string of exactly eight binary
    digits that spells [n], padded with zeros on the left. *)
Theorem getFlags_byte_is_eight_binary_digits
  {Dev : Type} `{Serial Dev} (d d' : Dev) (s : string) (n : Z) :
  query d "?F" = (Some s, d') ->
  Py.int s = Some n ->
  0 <= n <= 255 ->
  getFlags d = mkOutcome (Ok (Py.format_08b n)) d' [EvQuery "?F" (Some s)] /\
  String.length (Py.format_08b n) = 8%nat /\
  bits_value (Py.format_08b n) = Some n.
Proof.
  intros Q P Hn. split; [now apply getFlags_answered|].
  split; [now apply length_format_08b_byte|].
  apply bits_value_format_08b. lia.
Qed.

Lemma getFlags_byte_is_eight_binary_digits_witness :
  query (Dev:=Replay.t) ["5"] "?F" = (Some "5", []) /\
  Py.int "5" = Some 5 /\
  0 <= 5 <= 255 /\
  getFlags (Dev:=Replay.t) ["5"]
  = mkOutcome (Ok (Py.format_08b 5)) [] [EvQuery "?F" (Some "5")] /\
  String.length (Py.format_08b 5) = 8%nat /\
  bits_value (Py.format_08b 5) = Some 5.
Proof.
  split; [reflexivity|]. split; [reflexivity|]. split; [lia|].
  apply (getFlags_byte_is_eight_binary_digits (Dev:=Replay.t) ["5"] [] "5" 5);
    [reflexivity | reflexivity | lia].
Defined.

(** The example of the specification: the reply "5" gives "00000101". *)
Example getFlags_five :
  getFlags (Dev:=Replay.t) ["5"]
  = mkOutcome (Ok "00000101") [] [EvQuery "?F" (Some "5")].
Proof. reflexivity. Qed.

(** C3, as stated, fails: nothing is truncated, the reply "256" gives a
    string of nine characters. *)
Lemma getFlags_does_not_truncate :
  res (getFlags (Dev:=Replay.t) ["256"]) = Ok "100000000" /\
  String.length "100000000" <> 8%nat.
Proof. split; [reflexivity|discriminate]. Qed.

(** ** Rejected arguments and the range selector *)

Lemma mem_In x xs : Py.mem x xs = true <-> In x xs.
Proof.
  unfold Py.mem. rewrite existsb_exists. split.
  - intros [y [I E]]. apply Z.eqb_eq in E. now subst.
  - intros I. exists x. split; [exact I|apply Z.eqb_refl].
Qed.

Lemma mem_str_In s xs : Py.mem_str s xs = true <-> In s xs.
Proof.
  unfold Py.mem_str. rewrite existsb_exists. split.
  - intros [y [I E]]. apply String.eqb_eq in E. now subst.
  - intros I. exists s. split; [exact I|apply String.eqb_refl].
Qed.

Section Arguments.

Context {Dev : Type} `{Serial Dev}.

Lemma setRange_selected range (x : Z) d :
  Py.mem_str range ["Low"; "Medium"; "High"] = true ->
  (if (range =? "High")%string || (range =? "high")%string then Some 2
   else if (range =? "Medium")%string || (range =? "medium")%string then Some 1
   else if (range =? "Low")%string || (range =? "low")%string then Some 0
   else None) = Some x ->
  sent (trace (setRange range d)) = [("R" ++ Py.str x)%string].
Proof.
  intros A X. unfold setRange. rewrite A.
  unfold assert_. rewrite bind_ret_l.
  cbv zeta. rewrite X. unfold try_. rewrite bind_ret_l.
  apply sent_then_ret.
Qed.

Lemma setRange_rejected range d :
  ~ In range ["Low"; "Medium"; "High"] ->
  setRange range d
  = mkOutcome (Raise (AssertionError "Range not recognised")) d [].
Proof.
  intros N. unfold setRange.
  destruct (Py.mem_str range ["Low"; "Medium"; "High"]) eqn:E.
  - apply mem_str_In in E. contradiction.
  - reflexivity.
Qed.

Lemma setVoltage_rejected fuel voltage d :
  ~ In voltage listOfVoltages ->
  setVoltage fuel voltage d
  = mkOutcome
      (Raise (AssertionError
                (Py.str voltage ++ " V is not a valid value of voltage")%string))
      d [].
Proof.
  intros N. unfold setVoltage.
  destruct (Py.mem voltage listOfVoltages) eqn:E.
  - apply mem_In in E. contradiction.
  - reflexivity.
Qed.

Lemma setIntegrationTime_rejected fuel x d :
  ~ valid_integration_time x ->
  exists msg,
    setIntegrationTime fuel x d = mkOutcome (Raise (AssertionError msg)) d [].
Proof.
  intros N. destruct x as [t|shown]; simpl in *.
  - destruct ((6 <=? t) && (t <=? 9999)) eqn:E.
    + apply andb_prop in E. destruct E as [E1 E2].
      apply Z.leb_le in E1, E2. lia.
    + eexists. reflexivity.
  - eexists. reflexivity.
Qed.

End Arguments.

(** C4, at the input where the code departs from it.  [setRange] sends the
    single command "R0", "R1", "R2" for "Low", "Medium", "High" and rejects
    "Purple" without sending anything; but the lower-case name "low", which
    the selector computation provides for, is rejected by the assertion as
    well, and nothing is sent. *)
Theorem setRange_exact_names_only {Dev : Type} `{Serial Dev} (d : Dev) :
  sent (trace (setRange "Low" d)) = ["R0"] /\
  sent (trace (setRange "Medium" d)) = ["R1"] /\
  sent (trace (setRange "High" d)) = ["R2"] /\
  setRange "Purple" d
  = mkOutcome (Raise (AssertionError "Range not recognised")) d [] /\
  setRange "low" d
  = mkOutcome (Raise (AssertionError "Range not recognised")) d [].
Proof.
  split; [apply (setRange_selected "Low" 0); reflexivity|].
  split; [apply (setRange_selected "Medium" 1); reflexivity|].
  split; [apply (setRange_selected "High" 2); reflexivity|].
  split; reflexivity.
Qed.

(** C5.  A voltage outside the list of voltages, a range name outside
    Low, Medium, High, and an integration time that is not an integer
    between 6 and 9999 each make the operation raise [AssertionError] with
    an empty log and an untouched device: nothing was sent. *)
Theorem invalid_arguments_rejected_before_any_exchange
  {Dev : Type} `{Serial Dev} (fuel : nat) (d : Dev) :
  (forall voltage,
      ~ In voltage listOfVoltages ->
      exists msg,
        setVoltage fuel voltage d
        = mkOutcome (Raise (AssertionError msg)) d []) /\
  (forall range,
      ~ In range ["Low"; "Medium"; "High"] ->
      exists msg,
        setRange range d = mkOutcome (Raise (AssertionError msg)) d []) /\
  (forall integrationTime,
      ~ valid_integration_time integrationTime ->
      exists msg,
        setIntegrationTime fuel integrationTime d
        = mkOutcome (Raise (AssertionError msg)) d []).
Proof.
  split; [|split].
  - intros v N. eexists. now apply setVoltage_rejected.
  - intros r N. eexists. now apply setRange_rejected.
  - intros x N. now apply setIntegrationTime_rejected.
Qed.

Lemma invalid_arguments_rejected_before_any_exchange_witness :
  (~ In 75 listOfVoltages /\
   exists msg,
     setVoltage (Dev:=Replay.t) 4 75 ["00"]
     = mkOutcome (Raise (AssertionError msg)) ["00"] []) /\
  (~ In "Purple" ["Low"; "Medium"; "High"] /\
   exists msg,
     setRange (Dev:=Replay.t) "Purple" ["00"]
     = mkOutcome (Raise (AssertionError msg)) ["00"] []) /\
  (~ valid_integration_time (PyInt 5) /\
   exists msg,
     setIntegrationTime (Dev:=Replay.t) 4 (PyInt 5) ["00"]
     = mkOutcome (Raise (AssertionError msg)) ["00"] []) /\
  (~ valid_integration_time (PyOther "7.5") /\
   exists msg,
     setIntegrationTime (Dev:=Replay.t) 4 (PyOther "7.5") ["00"]
     = mkOutcome (Raise (AssertionError msg)) ["00"] []).
Proof.
  pose proof (invalid_arguments_rejected_before_any_exchange
                (Dev:=Replay.t) 4 ["00"]) as [V [R T]].
  assert (NV : ~ In 75 listOfVoltages).
  { intros I. apply mem_In in I. discriminate I. }
  assert (NR : ~ In "Purple" ["Low"; "Medium"; "High"]).
  { intros I. apply mem_str_In in I. discriminate I. }
  assert (N5 : ~ valid_integration_time (PyInt 5)) by (simpl; lia).
  assert (NF : ~ valid_integration_time (PyOther "7.5")) by (simpl; tauto).
  split; [split; [exact NV|exact (V 75 NV)]|].
  split; [split; [exact NR|exact (R "Purple" NR)]|].
  split; [split; [exact N5|exact (T (PyInt 5) N5)]|].
  split; [exact NF|exact (T (PyOther "7.5") NF)].
Defined.

(** ** Closing the session *)

(** C8, as amended.  [close] sends "T1"; when the instrument answers, the
    serial resource is closed next and [close] returns; when the exchange
    fails with a transport error, the error is raised out of [close] and the
    serial resource has not been closed. *)
Theorem close_sends_T1_then_releases_if_answered
  {Dev : Type} `{Serial Dev} (d d' : Dev) (answer : option string) :
  query d "T1" = (answer, d') ->
  sent (trace (close d)) = ["T1"] /\
  match answer with
  | Some r =>
      close d = mkOutcome (Ok tt) d' (exchange "T1" true r ++ [EvClose])
  | None =>
      close d = mkOutcome (Raise VisaIOError) d' [EvQuery "T1" None] /\
      released (trace (close d)) = false
  end.
Proof.
  intros Q. unfold close. destruct answer as [r|].
  - rewrite (bind_ok _ _ _ _ _ _ (sendCommand_answered _ true _ _ _ Q)).
    cbn [trace res dev serial_close emit].
    split; [|reflexivity].
    rewrite sent_app, sent_exchange. reflexivity.
  - rewrite (bind_raise _ _ _ _ _ _ (sendCommand_timeout _ true _ _ Q)).
    split; [reflexivity|split; reflexivity].
Qed.

Lemma close_sends_T1_then_releases_if_answered_witness :
  (query (Dev:=Replay.t) [] "T1" = (Some "T1", []) /\
   sent (trace (close (Dev:=Replay.t) [])) = ["T1"] /\
   close (Dev:=Replay.t) []
   = mkOutcome (Ok tt) [] (exchange "T1" true "T1" ++ [EvClose])) /\
  (query (Dev:=Silent.t) tt "T1" = (None, tt) /\
   sent (trace (close (Dev:=Silent.t) tt)) = ["T1"] /\
   close (Dev:=Silent.t) tt
   = mkOutcome (Raise VisaIOError) tt [EvQuery "T1" None] /\
   released (trace (close (Dev:=Silent.t) tt)) = false).
Proof.
  split.
  - split; [reflexivity|].
    exact (close_sends_T1_then_releases_if_answered
             (Dev:=Replay.t) [] [] (Some "T1") eq_refl).
  - split; [reflexivity|].
    exact (close_sends_T1_then_releases_if_answered
             (Dev:=Silent.t) tt tt None eq_refl).
Defined.

(** C8, as stated, fails: against an instrument that does not answer "T1",
    [close] ends with the transport error and the serial resource is never
    closed. *)
Lemma close_leaks_on_transport_error :
  res (close (Dev:=Silent.t) tt) = Raise VisaIOError /\
  released (trace (close (Dev:=Silent.t) tt)) = false.
Proof. split; reflexivity. Qed.

(** ** The position check of [integrate] *)

Section Integration.

Context {Dev : Type} `{Serial Dev}.

Lemma first_character_is_not_root r r0 :
  Py.item r 0 = Some r0 -> (r0 =? "00")%string = false.
Proof.
  unfold Py.item. destruct r as [|c r']; simpl; [discriminate|].
  intros E. injection E as <-. simpl.
  destruct (c =? "0")%char; reflexivity.
Qed.

End Integration.

(** C10.  Whatever non-empty position the instrument reports, the guard of
    [integrate] holds, because one character is compared with "00";
    [integrate] therefore runs the navigation to the setup position after
    its position query, also when the reported position is "00". *)
Theorem integrate_always_seeks_setup_position
  {Dev : Type} `{Serial Dev} (Float : Type) (float : string -> option Float)
  (fuel : nat) (d d' : Dev) (r : string) :
  query d "?W" = (Some r, d') ->
  r <> "" ->
  (forall r0, Py.item r 0 = Some r0 -> negb (r0 =? "00")%string = true) /\
  integrate Float float fuel d
  = bind getPosition
         (fun _ => bind (goToSetupPosition fuel)
                        (fun _ => integrate_measure Float float fuel)) d.
Proof.
  intros Q N. split.
  - intros r0 E. now rewrite (first_character_is_not_root r r0 E).
  - unfold integrate.
    rewrite !(bind_ok _ _ _ _ _ _ (getPosition_answered _ _ _ Q)).
    destruct r as [|c r']; [contradiction|].
    unfold Py.item, String.get, try_. rewrite bind_ret_l.
    rewrite (first_character_is_not_root (String c r') (String c ""))
      by reflexivity.
    reflexivity.
Qed.

Lemma integrate_always_seeks_setup_position_witness :
  query (Dev:=Replay.t) ["00"; "00"] "?W" = (Some "00", ["00"]) /\
  "00" <> "" /\
  (forall r0, Py.item "00" 0 = Some r0 -> negb (r0 =? "00")%string = true) /\
  integrate (Dev:=Replay.t) Z Py.int 3 ["00"; "00"]
  = bind getPosition
         (fun _ => bind (goToSetupPosition 3)
                        (fun _ => integrate_measure Z Py.int 3)) ["00"; "00"].
Proof.
  split; [reflexivity|]. split; [discriminate|].
  apply (integrate_always_seeks_setup_position
           (Dev:=Replay.t) Z Py.int 3 ["00"; "00"] ["00"] "00");
    [reflexivity | discriminate].
Defined.

(** At the setup position already, [integrate] still asks for the position
    three times in a row: its own query, the one of the navigation it did
    not skip, and the one of [getIntegrationTime]. *)
Example integrate_at_root_queries_position_again :
  firstn 4 (sent (trace (integrate (Dev:=Replay.t) Z Py.int 3
                           ["00"; "00"; "00"; "E"; "E"; "10"; "00"])))
  = ["?W"; "?W"; "?W"; "E"].
Proof. reflexivity. Qed.

(** ** Navigation to the setup position: the loop *)

Section Loop.

Context {Dev : Type} `{Serial Dev}.

Lemma getPosition_ok_inv d r :
  res (getPosition d) = Ok r ->
  trace (getPosition d) = [EvQuery "?W" (Some r)].
Proof.
  destruct (query d "?W") as [[a|] d'] eqn:Q.
  - rewrite (getPosition_answered _ _ _ Q). simpl. congruence.
  - unfold getPosition. rewrite (sendCommand_timeout _ _ _ _ Q). discriminate.
Qed.

(** The loop is left only on a position query answered "00". *)
Lemma setup_loop_exit fuel : forall r d,
  res (setup_loop fuel r d) = Ok tt ->
  (r = "00" /\ trace (setup_loop fuel r d) = []) \/
  exists t, trace (setup_loop fuel r d) = t ++ [EvQuery "?W" (Some "00")].
Proof.
  induction fuel as [|fuel IH]; intros r d R.
  - simpl in *. destruct (String.eqb_spec r "00") as [E|N].
    + left. split; [exact E|reflexivity].
    + discriminate R.
  - destruct (String.eqb_spec r "00") as [E|N].
    + left. subst r. rewrite setup_loop_root. split; reflexivity.
    + right. rewrite setup_loop_pass in * by exact N.
      apply bind_ok_inv in R. destruct R as [[] [_ [R T]]].
      rewrite T. clear T.
      apply bind_ok_inv in R. destruct R as [r' [P [R T]]].
      rewrite T. clear T.
      rewrite (getPosition_ok_inv _ _ P).
      destruct (IH _ _ R) as [[-> E]|[t E]]; rewrite E.
      * eexists. rewrite app_nil_r. reflexivity.
      * exists (trace (setup_move r d) ++ EvQuery "?W" (Some r') :: t).
        rewrite <- !app_assoc. reflexivity.
Qed.

Lemma goToSetupPosition_exit fuel d :
  res (goToSetupPosition fuel d) = Ok tt ->
  exists t, trace (goToSetupPosition fuel d) = t ++ [EvQuery "?W" (Some "00")].
Proof.
  unfold goToSetupPosition. intros R.
  apply bind_ok_inv in R. destruct R as [r [P [R T]]].
  rewrite T, (getPosition_ok_inv _ _ P).
  destruct (setup_loop_exit _ _ _ R) as [[-> E]|[t E]]; rewrite E.
  - exists []. reflexivity.
  - exists (EvQuery "?W" (Some r) :: t). reflexivity.
Qed.

Lemma then_ret_answered command d a d' :
  query d command = (Some a, d') ->
  bind (_sendCommand command true) (fun _ => ret tt) d
  = mkOutcome (Ok tt) d' (exchange command true a).
Proof.
  intros Q. rewrite (bind_ok _ _ _ _ _ _ (sendCommand_answered _ true _ _ _ Q)).
  simpl. now rewrite app_nil_r.
Qed.

Lemma setup_move_deep_answered r d a d' :
  (2 < String.length r)%nat ->
  query d "C" = (Some a, d') ->
  setup_move r d = mkOutcome (Ok tt) d' (exchange "C" true a).
Proof.
  intros L Q. unfold setup_move. apply Nat.ltb_lt in L. rewrite L.
  now apply then_ret_answered.
Qed.

Lemma setup_move_top_answered c0 c1 d a d' :
  c0 <> "0"%char ->
  query d "M0" = (Some a, d') ->
  setup_move (String c0 (String c1 "")) d
  = mkOutcome (Ok tt) d' (exchange "M0" true a).
Proof.
  intros N Q. unfold setup_move. cbn [String.length Nat.ltb Nat.leb].
  unfold Py.item, String.get, try_. rewrite bind_ret_l.
  replace (String c0 "" =? "0")%string with false.
  - now apply then_ret_answered.
  - symmetry. apply String.eqb_neq. congruence.
Qed.

Lemma setup_move_sub_answered c1 d a d' :
  c1 <> "0"%char ->
  query d "U" = (Some a, d') ->
  setup_move (String "0" (String c1 "")) d
  = mkOutcome (Ok tt) d' (exchange "U" true a).
Proof.
  intros N Q. unfold setup_move. cbn [String.length Nat.ltb Nat.leb].
  unfold Py.item, String.get, try_. rewrite bind_ret_l.
  change ("0" =? "0")%string with true. cbn [negb]. rewrite bind_ret_l.
  replace (String c1 "" =? "0")%string with false.
  - now apply then_ret_answered.
  - symmetry. apply String.eqb_neq. congruence.
Qed.

(** One pass of the loop, when the move and the new position query are
    answered. *)
Lemma setup_loop_step fuel r d d1 t1 r' d2 :
  r <> "00" ->
  setup_move r d = mkOutcome (Ok tt) d1 t1 ->
  query d1 "?W" = (Some r', d2) ->
  setup_loop (S fuel) r d
  = mkOutcome (res (setup_loop fuel r' d2)) (dev (setup_loop fuel r' d2))
              (t1 ++ EvQuery "?W" (Some r') :: trace (setup_loop fuel r' d2)).
Proof.
  intros N Mv Q. rewrite setup_loop_pass by exact N.
  rewrite (bind_ok _ _ _ _ _ _ Mv).
  rewrite (bind_ok _ _ _ _ _ _ (getPosition_answered _ _ _ Q)).
  reflexivity.
Qed.

End Loop.

(** ** The simulated instrument *)

Lemma length_removelast {A} (l : list A) :
  List.length (removelast l) = pred (List.length l).
Proof.
  rewrite removelast_firstn_len, length_firstn. lia.
Qed.

Lemma Forall_removelast {A} (P : A -> Prop) (l : list A) :
  Forall P l -> Forall P (removelast l).
Proof.
  induction 1 as [|a l Pa F IH]; [constructor|].
  simpl. destruct l; [constructor|]. constructor; assumption.
Qed.

Lemma sim_code_shape s :
  Sim.code s
  = String (ascii_of_nat (48 + Sim.top s))
      (String (ascii_of_nat (48 + Sim.sub s)) (Sim.digits (Sim.deep s))).
Proof. reflexivity. Qed.

Lemma sim_length_digits ns :
  String.length (Sim.digits ns) = List.length ns.
Proof.
  induction ns as [|n ns IH]; simpl; [reflexivity|]. now rewrite IH.
Qed.

Lemma sim_length_code s :
  String.length (Sim.code s) = (2 + List.length (Sim.deep s))%nat.
Proof. rewrite sim_code_shape. simpl. now rewrite sim_length_digits. Qed.

Lemma sim_digit_nonzero n :
  (0 < n <= 9)%nat -> ascii_of_nat (48 + n) <> "0"%char.
Proof.
  intros [L U].
  do 10 (destruct n as [|n]; [first [lia | discriminate]|]). lia.
Qed.

Lemma sim_wf_step s command : Sim.wf s -> Sim.wf (Sim.step s command).
Proof.
  intros W. pose proof W as [T [S D]]. unfold Sim.step.
  destruct (command =? "C")%string.
  { repeat split; simpl; try assumption. now apply Forall_removelast. }
  destruct (command =? "M0")%string.
  { repeat split; simpl; try assumption. lia. }
  destruct (command =? "U")%string.
  { destruct (Sim.deep s); [|exact W].
    repeat split; simpl; try assumption; try lia; try constructor. }
  destruct (command =? "D")%string.
  { destruct (Sim.deep s); [|exact W].
    repeat split; simpl; try assumption;
      try (destruct (Nat.ltb_spec (Sim.sub s) 9); lia); constructor. }
  destruct (command =? "E")%string.
  { repeat split; simpl; try assumption.
    apply Forall_app. split; [assumption|]. constructor; [lia|constructor]. }
  destruct (Sim.all_digits command && negb (command =? "")%string);
    [repeat split; simpl; assumption|exact W].
Qed.

(** Every position the simulated instrument can be driven into is
    well formed. *)
Lemma sim_reachable_wf s : Sim.reachable s -> Sim.wf s.
Proof.
  induction 1 as [|s command R IH].
  - unfold Sim.wf, Sim.root. simpl. repeat split; try lia. constructor.
  - now apply sim_wf_step.
Qed.

Lemma sim_distance_bound s :
  Sim.wf s -> (Sim.distance s <= String.length (Sim.code s) + 8)%nat.
Proof.
  intros [T [S D]]. rewrite sim_length_code. unfold Sim.distance.
  destruct (Sim.top s =? 0)%nat; lia.
Qed.

(** From a position at [n] moves of the root the loop makes [n] passes, one
    move and one position query each, and stops at the root. *)
Lemma sim_setup_loop n : forall s fuel,
  Sim.wf s -> Sim.distance s = n -> (n <= fuel)%nat ->
  exists t,
    setup_loop fuel (Sim.code s) s
    = mkOutcome (Ok tt) (Sim.mk 0 0 [] (Sim.value s)) t /\
    List.length (sent t) = (2 * n)%nat.
Proof.
  induction n as [|n IH]; intros [top sub deep value] fuel W Dn F.
  - unfold Sim.distance in Dn. simpl in Dn.
    destruct deep as [|x deep]; [|simpl in Dn; lia].
    destruct top as [|top]; [|simpl in Dn; lia].
    destruct sub as [|sub]; [|simpl in Dn; lia].
    exists []. split; [apply setup_loop_root|reflexivity].
  - destruct fuel as [|fuel]; [lia|].
    destruct W as [T [S D]]. simpl in T, S, D.
    unfold Sim.distance in Dn. simpl in Dn.
    destruct deep as [|x deep].
    + destruct top as [|top].
      * destruct sub as [|sub]; [simpl in Dn; lia|].
        assert (Nz : ascii_of_nat (48 + Datatypes.S sub) <> "0"%char)
          by (apply sim_digit_nonzero; lia).
        destruct (IH (Sim.mk 0 sub [] value) fuel) as [t [E L]].
        { repeat split; simpl; try lia. constructor. }
        { unfold Sim.distance. simpl in *. lia. }
        { lia. }
        rewrite (setup_loop_step fuel _ (Sim.mk 0 (Datatypes.S sub) [] value)
                   (Sim.mk 0 sub [] value) (exchange "U" true "U")
                   (Sim.code (Sim.mk 0 sub [] value)) (Sim.mk 0 sub [] value)).
        -- rewrite E. cbn [res dev trace Sim.value].
           eexists. split; [reflexivity|].
           rewrite sent_app, sent_exchange. simpl. rewrite L. lia.
        -- rewrite sim_code_shape. cbn [Sim.top Sim.sub Sim.deep Sim.digits].
           intros C. injection C as C. exact (Nz C).
        -- rewrite sim_code_shape.
           apply setup_move_sub_answered; [exact Nz|reflexivity].
        -- reflexivity.
      * assert (Nz : ascii_of_nat (48 + Datatypes.S top) <> "0"%char)
          by (apply sim_digit_nonzero; lia).
        destruct (IH (Sim.mk 0 sub [] value) fuel) as [t [E L]].
        { repeat split; simpl; try lia. constructor. }
        { unfold Sim.distance. simpl in *. lia. }
        { lia. }
        rewrite (setup_loop_step fuel _ (Sim.mk (Datatypes.S top) sub [] value)
                   (Sim.mk 0 sub [] value) (exchange "M0" true "M0")
                   (Sim.code (Sim.mk 0 sub [] value)) (Sim.mk 0 sub [] value)).
        -- rewrite E. cbn [res dev trace Sim.value].
           eexists. split; [reflexivity|].
           rewrite sent_app, sent_exchange. simpl. rewrite L. lia.
        -- rewrite sim_code_shape. cbn [Sim.top Sim.sub Sim.deep Sim.digits].
           intros C. injection C as C _. exact (Nz C).
        -- rewrite sim_code_shape.
           apply setup_move_top_answered; [exact Nz|reflexivity].
        -- reflexivity.
    + set (s := Sim.mk top sub (x :: deep) value).
      set (s1 := Sim.mk top sub (removelast (x :: deep)) value).
      destruct (IH s1 fuel) as [t [E L]].
      { split; [exact T|split; [exact S|exact (Forall_removelast _ _ D)]]. }
      { unfold Sim.distance, s1. cbn [Sim.top Sim.sub Sim.deep].
        rewrite length_removelast. simpl in *. lia. }
      { lia. }
      assert (Ln : (2 < String.length (Sim.code s))%nat).
      { rewrite sim_length_code. simpl. lia. }
      assert (Nr : Sim.code s <> "00").
      { intros C. rewrite C in Ln. simpl in Ln. lia. }
      rewrite (setup_loop_step fuel (Sim.code s) s s1
                 (exchange "C" true "C") (Sim.code s1) s1 Nr).
      * rewrite E. cbn [res dev trace Sim.value].
        eexists. split; [reflexivity|].
        rewrite sent_app, sent_exchange. simpl. rewrite L. lia.
      * apply setup_move_deep_answered; [exact Ln|reflexivity].
      * reflexivity.
Qed.

(** C9.  Against the simulated instrument, from any well-formed position
    (every reachable position is well formed, [sim_reachable_wf]) and with
    fuel for as many passes as the position is moves away from the root,
    [goToSetupPosition] returns with the instrument at "00", after one
    position query and then one move and one query per pass; the number of
    passes is at most the length of the position code plus eight.  And
    against any instrument, when [goToSetupPosition] returns, the last
    exchange is a position query answered "00". *)
Theorem goToSetupPosition_terminates_at_root :
  (forall (s : Sim.t) (fuel : nat),
      Sim.wf s ->
      (Sim.distance s <= fuel)%nat ->
      exists t,
        goToSetupPosition fuel s
        = mkOutcome (Ok tt) (Sim.mk 0 0 [] (Sim.value s)) t /\
        Sim.code (Sim.mk 0 0 [] (Sim.value s)) = "00" /\
        List.length (sent t) = (1 + 2 * Sim.distance s)%nat /\
        (Sim.distance s <= String.length (Sim.code s) + 8)%nat) /\
  (forall (Dev : Type) (serial : Serial Dev) (fuel : nat) (d : Dev),
      res (goToSetupPosition fuel d) = Ok tt ->
      exists t,
        trace (goToSetupPosition fuel d) = t ++ [EvQuery "?W" (Some "00")]).
Proof.
  split.
  - intros s fuel W F.
    destruct (sim_setup_loop (Sim.distance s) s fuel W eq_refl F) as [t [E L]].
    exists (EvQuery "?W" (Some (Sim.code s)) :: t).
    split; [|split; [reflexivity|split; [|now apply sim_distance_bound]]].
    + unfold goToSetupPosition.
      rewrite (bind_ok _ _ s (Sim.code s) s [EvQuery "?W" (Some (Sim.code s))]).
      * rewrite E. reflexivity.
      * apply getPosition_answered. reflexivity.
    + simpl. rewrite L. reflexivity.
  - intros Dev serial fuel d. apply goToSetupPosition_exit.
Qed.

Lemma goToSetupPosition_terminates_at_root_witness :
  Sim.wf (Sim.mk 0 2 [0; 0]%nat "0") /\
  (Sim.distance (Sim.mk 0 2 [0; 0]%nat "0") <= 4)%nat /\
  (exists t,
      goToSetupPosition 4 (Sim.mk 0 2 [0; 0]%nat "0")
      = mkOutcome (Ok tt) (Sim.mk 0 0 [] "0") t /\
      Sim.code (Sim.mk 0 0 [] "0") = "00" /\
      List.length (sent t) = 9%nat /\
      (4 <= 12)%nat) /\
  (res (goToSetupPosition 4 (Sim.mk 0 2 [0; 0]%nat "0")) = Ok tt /\
   exists t,
     trace (goToSetupPosition 4 (Sim.mk 0 2 [0; 0]%nat "0"))
     = t ++ [EvQuery "?W" (Some "00")]).
Proof.
  assert (W : Sim.wf (Sim.mk 0 2 [0; 0]%nat "0")).
  { repeat split; simpl; try lia. repeat constructor. }
  assert (F : (Sim.distance (Sim.mk 0 2 [0; 0]%nat "0") <= 4)%nat)
    by (vm_compute; lia).
  split; [exact W|]. split; [exact F|].
  destruct goToSetupPosition_terminates_at_root as [S G].
  split.
  - exact (S (Sim.mk 0 2 [0; 0]%nat "0") 4%nat W F).
  - split; [reflexivity|].
    exact (G Sim.t Sim.serial 4%nat (Sim.mk 0 2 [0; 0]%nat "0") eq_refl).
Defined.

(** The commands of that run. *)
Example goToSetupPosition_from_submenu :
  sent (trace (goToSetupPosition 4 (Sim.mk 0 2 [0; 0]%nat "0")))
  = ["?W"; "C"; "?W"; "C"; "?W"; "U"; "?W"; "U"; "?W"].
Proof. reflexivity. Qed.

(** ** Setting the integration time *)

Section IntegrationTime.

Context {Dev : Type} `{Serial Dev}.

Lemma setIntegrationTime_commands fuel t d :
  res (setIntegrationTime fuel (PyInt t) d) = Ok tt ->
  sent (trace (setIntegrationTime fuel (PyInt t) d))
  = sent (trace (goToSetupPosition fuel d))
    ++ ["E"; "E"; Py.zfill 4 (Py.str t); "E"; "V"].
Proof.
  unfold setIntegrationTime. intros R.
  apply sent_bind_ok in R. destruct R as [[] [Ra [R ->]]].
  assert (Ed : dev (assert_ ((6 <=? t) && (t <=? 9999))
                      (Py.str t ++ " s is not a valid value of integration time")%string
                      d) = d).
  { unfold assert_. destruct ((6 <=? t) && (t <=? 9999)); reflexivity. }
  assert (Et : trace (assert_ ((6 <=? t) && (t <=? 9999))
                        (Py.str t ++ " s is not a valid value of integration time")%string
                        d) = []).
  { unfold assert_. destruct ((6 <=? t) && (t <=? 9999)); reflexivity. }
  rewrite Ed in *. rewrite Et. clear Ra Ed Et. cbn [sent app].
  apply sent_bind_ok in R. destruct R as [[] [_ [R ->]]]. f_equal.
  apply sent_bind_ok in R. destruct R as [? [_ [R ->]]].
  rewrite sent_sendCommand.
  apply sent_bind_ok in R. destruct R as [? [_ [R ->]]].
  rewrite sent_sendCommand.
  apply sent_bind_ok in R. destruct R as [? [_ [R ->]]].
  rewrite sent_sendCommand.
  apply sent_bind_ok in R. destruct R as [? [_ [R ->]]].
  rewrite sent_sendCommand.
  apply sent_bind_ok in R. destruct R as [r [_ [R ->]]].
  rewrite sent_sendCommand.
  apply sent_bind_ok in R. destruct R as [n [_ [R ->]]].
  rewrite sent_try_.
  destruct (negb (t =? n)); reflexivity.
Qed.

End IntegrationTime.

(** C7, where the code departs from it.  When [setIntegrationTime] returns,
    the commands it has sent are those of the initial navigation to the
    setup position followed by "E", "E", the four digits, "E" and the
    read-back "V", and nothing more: no navigation back.  Against the
    simulated instrument, [setIntegrationTime(10)] from the root returns
    with the cursor three levels down, at "00000". *)
Theorem setIntegrationTime_leaves_cursor_in_submenu :
  (forall (Dev : Type) (serial : Serial Dev) (fuel : nat) (t : Z) (d : Dev),
      res (setIntegrationTime fuel (PyInt t) d) = Ok tt ->
      sent (trace (setIntegrationTime fuel (PyInt t) d))
      = sent (trace (goToSetupPosition fuel d))
        ++ ["E"; "E"; Py.zfill 4 (Py.str t); "E"; "V"]) /\
  res (setIntegrationTime 1 (PyInt 10) Sim.root) = Ok tt /\
  sent (trace (setIntegrationTime 1 (PyInt 10) Sim.root))
  = ["?W"; "E"; "E"; "0010"; "E"; "V"] /\
  Sim.code (dev (setIntegrationTime 1 (PyInt 10) Sim.root)) = "00000" /\
  Sim.code (dev (setIntegrationTime 1 (PyInt 10) Sim.root)) <> "00".
Proof.
  split.
  - intros Dev serial fuel t d. apply setIntegrationTime_commands.
  - repeat split; try reflexivity. vm_compute. discriminate.
Qed.

Lemma setIntegrationTime_leaves_cursor_in_submenu_witness :
  res (setIntegrationTime 1 (PyInt 10) Sim.root) = Ok tt /\
  sent (trace (setIntegrationTime 1 (PyInt 10) Sim.root))
  = sent (trace (goToSetupPosition 1 Sim.root))
    ++ ["E"; "E"; Py.zfill 4 (Py.str 10); "E"; "V"].
Proof.
  split; [reflexivity|].
  exact (proj1 setIntegrationTime_leaves_cursor_in_submenu
           Sim.t Sim.serial 1%nat 10 Sim.root eq_refl).
Defined.

(** ** Setting the voltage *)

Lemma index_from_In x xs : forall k,
  In x xs -> exists i, Py.index_from k x xs = Some i.
Proof.
  induction xs as [|y ys IH]; intros k I; [contradiction|].
  simpl. destruct (x =? y) eqn:E; [eexists; reflexivity|].
  destruct I as [->|I]; [rewrite Z.eqb_refl in E; discriminate|].
  now apply IH.
Qed.

Section Voltage.

Context {Dev : Type} `{Serial Dev}.

Lemma times_answered (R : responsive Dev) command n : forall d,
  exists d' t,
    times n (bind (_sendCommand command true) (fun _ => ret tt)) d
    = mkOutcome (Ok tt) d' t /\
    sent t = repeat command n.
Proof.
  induction n as [|n IH]; intros d.
  - exists d, []. split; reflexivity.
  - destruct (R d command) as [r [d1 Q]].
    destruct (IH d1) as [d2 [t [E S]]].
    exists d2, (exchange command true r ++ t). split.
    + cbn [times].
      rewrite (bind_ok _ _ _ _ _ _ (then_ret_answered _ _ _ _ Q)).
      rewrite E. reflexivity.
    + rewrite sent_app, sent_exchange, S. reflexivity.
Qed.

Lemma setVoltage_step_answered (R : responsive Dev) move d :
  exists d' t,
    setVoltage_step move d = mkOutcome (Ok tt) d' t /\
    sent t = repeat (if 0 <? move then "U" else "D") (Z.abs_nat move).
Proof.
  unfold setVoltage_step.
  destruct (Z.ltb_spec 0 move) as [P|NP].
  - destruct (times_answered R "U" (Z.to_nat move) d) as [d' [t [E S]]].
    exists d', t. split.
    + rewrite (bind_ok _ _ _ _ _ _ E).
      destruct (Z.ltb_spec move 0); [lia|]. simpl. now rewrite app_nil_r.
    + rewrite S. f_equal. lia.
  - rewrite bind_ret_l. destruct (Z.ltb_spec move 0) as [N|NN].
    + destruct (times_answered R "D" (Z.to_nat (- move)) d) as [d' [t [E S]]].
      exists d', t. split; [exact E|]. rewrite S. f_equal. lia.
    + exists d, []. split; [reflexivity|].
      replace move with 0 by lia. reflexivity.
Qed.

(** [setVoltage] once the present voltage has been read and the steps made. *)
Lemma setVoltage_after_step fuel voltage d aVoltage d1 t1 i1 i2 d2 steps :
  In voltage listOfVoltages ->
  getVoltage fuel false d = mkOutcome (Ok aVoltage) d1 t1 ->
  Py.index aVoltage listOfVoltages = Some i1 ->
  Py.index voltage listOfVoltages = Some i2 ->
  setVoltage_step (i2 - i1) d1 = mkOutcome (Ok tt) d2 steps ->
  setVoltage fuel voltage d
  = mkOutcome
      (res (bind (setVoltage_check voltage)
              (fun _ => goToSetupPosition fuel) d2))
      (dev (bind (setVoltage_check voltage)
              (fun _ => goToSetupPosition fuel) d2))
      (t1 ++ steps
          ++ trace (bind (setVoltage_check voltage)
                      (fun _ => goToSetupPosition fuel) d2)).
Proof.
  intros I G I1 I2 S. unfold setVoltage.
  apply mem_In in I. rewrite I. unfold assert_. rewrite bind_ret_l.
  rewrite (bind_ok _ _ _ _ _ _ G).
  rewrite I1, I2. unfold try_. rewrite !bind_ret_l. cbv zeta.
  rewrite (bind_ok _ _ _ _ _ _ S). reflexivity.
Qed.

(** The read-back and what follows it, as one sequence. *)
Lemma setVoltage_check_then fuel voltage d :
  bind (setVoltage_check voltage) (fun _ => goToSetupPosition fuel) d
  = bind (_sendCommand "V" false)
      (fun r =>
         bind (try_ IndexError (nth_error (Py.split_ws r) 0))
           (fun token =>
              bind (try_ ValueError (Py.int token))
                (fun n =>
                   bind (if negb (voltage =? n)
                         then print "Error setting the requested voltage, operation aborted."
                         else
                           bind (_sendCommand "E" false)
                             (fun response =>
                                if negb (response =? "E")%string
                                then bind (_sendCommand "G" false)
                                       (fun _ => ret tt)
                                else ret tt))
                     (fun _ => goToSetupPosition fuel)))) d.
Proof.
  unfold setVoltage_check.
  rewrite bind_assoc. apply bind_ext. intros r d1.
  rewrite bind_assoc. apply bind_ext. intros token d2.
  rewrite bind_assoc. reflexivity.
Qed.

Lemma setVoltage_check_mismatch fuel voltage d r d' token n :
  query d "V" = (Some r, d') ->
  nth_error (Py.split_ws r) 0 = Some token ->
  Py.int token = Some n ->
  n <> voltage ->
  bind (setVoltage_check voltage) (fun _ => goToSetupPosition fuel) d
  = mkOutcome (res (goToSetupPosition fuel d'))
      (dev (goToSetupPosition fuel d'))
      (EvQuery "V" (Some r)
         :: EvPrint "Error setting the requested voltage, operation aborted."
         :: trace (goToSetupPosition fuel d')).
Proof.
  intros Q T P N. rewrite setVoltage_check_then.
  rewrite (bind_ok _ _ _ _ _ _ (sendCommand_answered _ false _ _ _ Q)).
  rewrite exchange_unchecked.
  rewrite (bind_try_some _ _ _ _ _ T), (bind_try_some _ _ _ _ _ P).
  replace (voltage =? n) with false by (symmetry; apply Z.eqb_neq; congruence).
  cbn [negb]. reflexivity.
Qed.

Lemma setVoltage_check_answered (R : responsive Dev) fuel voltage d :
  exists r rest,
    trace (bind (setVoltage_check voltage)
             (fun _ => goToSetupPosition fuel) d)
    = EvQuery "V" (Some r) :: rest /\
    after_read_back voltage r rest.
Proof.
  destruct (R d "V") as [r [d' Q]].
  rewrite setVoltage_check_then.
  rewrite (bind_ok _ _ _ _ _ _ (sendCommand_answered _ false _ _ _ Q)).
  rewrite exchange_unchecked. cbn [trace app].
  exists r. eexists. split; [reflexivity|].
  unfold after_read_back.
  destruct (nth_error (Py.split_ws r) 0) as [token|]; [|reflexivity].
  rewrite (bind_try_some _ _ _ _ _ eq_refl).
  destruct (Py.int token) as [n|]; [|reflexivity].
  rewrite (bind_try_some _ _ _ _ _ eq_refl).
  destruct (voltage =? n); cbn [negb].
  - destruct (R d' "E") as [answer [d'' QE]].
    rewrite bind_assoc.
    rewrite (bind_ok _ _ _ _ _ _ (sendCommand_answered _ false _ _ _ QE)).
    rewrite exchange_unchecked. cbn [trace app].
    eexists. eexists. reflexivity.
  - eexists. reflexivity.
Qed.

Lemma sent_setup_move_cases r d :
  Forall (fun c => In c ["?W"; "C"; "M0"; "U"]) (sent (trace (setup_move r d))).
Proof.
  unfold setup_move.
  destruct (2 <? String.length r)%nat.
  { rewrite sent_then_ret. constructor; [simpl; tauto|constructor]. }
  destruct (Py.item r 0) as [r0|]; [|constructor].
  unfold try_ at 1. rewrite bind_ret_l.
  destruct (negb (r0 =? "0")%string).
  { rewrite sent_then_ret. constructor; [simpl; tauto|constructor]. }
  destruct (Py.item r 1) as [r1|]; [|constructor].
  unfold try_. rewrite bind_ret_l.
  destruct (negb (r1 =? "0")%string); [|constructor].
  rewrite sent_then_ret. constructor; [simpl; tauto|constructor].
Qed.

Lemma sent_getPosition d : sent (trace (getPosition d)) = ["?W"].
Proof. apply sent_sendCommand. Qed.

Lemma sent_setup_loop fuel : forall r d,
  Forall (fun c => In c ["?W"; "C"; "M0"; "U"])
         (sent (trace (setup_loop fuel r d))).
Proof.
  induction fuel as [|fuel IH]; intros r d.
  - simpl. destruct (r =? "00")%string; constructor.
  - destruct (String.eqb_spec r "00") as [->|N].
    + rewrite setup_loop_root. constructor.
    + rewrite setup_loop_pass by exact N.
      rewrite sent_bind. apply Forall_app. split; [apply sent_setup_move_cases|].
      destruct (res (setup_move r d)); try constructor.
      rewrite sent_bind, sent_getPosition.
      constructor; [simpl; tauto|].
      destruct (res (getPosition _)); try constructor. apply IH.
Qed.

(** The navigation sends position queries, "C", "M0" and "U" only. *)
Lemma sent_goToSetupPosition fuel d :
  Forall (fun c => In c ["?W"; "C"; "M0"; "U"])
         (sent (trace (goToSetupPosition fuel d))).
Proof.
  unfold goToSetupPosition. rewrite sent_bind, sent_getPosition.
  constructor; [simpl; tauto|].
  destruct (res (getPosition d)); try constructor. apply sent_setup_loop.
Qed.

End Voltage.

Lemma replay_query r (d : Replay.t) command :
  query (r :: d) command = (Some r, d).
Proof. reflexivity. Qed.

Lemma replay_responsive : responsive Replay.t.
Proof.
  intros d command. destruct d as [|r d'].
  - exists command, []. reflexivity.
  - exists r, d'. reflexivity.
Qed.

(** C2.  Against an instrument that answers, when the present voltage read
    by [getVoltage] is [v1] and the requested one is [v2], both in the list
    of voltages at the positions [i1] and [i2], the log of [setVoltage]
    continues after that of [getVoltage] with steps whose commands are
    [|i2 - i1|] times "U" if [i1 < i2] and as many times "D" otherwise (none
    when the positions are equal), then with the read-back "V", whose reply
    is compared with [v2]. *)
Theorem setVoltage_steps_by_index_difference
  {Dev : Type} `{Serial Dev} (fuel : nat) (v1 v2 : Z) (d d1 : Dev)
  (t1 : list event) :
  responsive Dev ->
  In v1 listOfVoltages ->
  In v2 listOfVoltages ->
  getVoltage fuel false d = mkOutcome (Ok v1) d1 t1 ->
  exists i1 i2 steps r rest,
    Py.index v1 listOfVoltages = Some i1 /\
    Py.index v2 listOfVoltages = Some i2 /\
    trace (setVoltage fuel v2 d) = t1 ++ steps ++ EvQuery "V" (Some r) :: rest /\
    sent steps = repeat (if i1 <? i2 then "U" else "D") (Z.abs_nat (i2 - i1)) /\
    after_read_back v2 r rest.
Proof.
  intros R I1 I2 G.
  destruct (index_from_In v1 listOfVoltages 0 I1) as [i1 E1].
  destruct (index_from_In v2 listOfVoltages 0 I2) as [i2 E2].
  destruct (setVoltage_step_answered R (i2 - i1) d1) as [d2 [steps [S C]]].
  destruct (setVoltage_check_answered R fuel v2 d2) as [r [rest [T A]]].
  exists i1, i2, steps, r, rest.
  split; [exact E1|]. split; [exact E2|].
  split; [|split; [|exact A]].
  - rewrite (setVoltage_after_step fuel v2 d v1 d1 t1 i1 i2 d2 steps I2 G E1 E2 S).
    cbn [trace]. now rewrite T.
  - rewrite C. f_equal.
    destruct (Z.ltb_spec 0 (i2 - i1)), (Z.ltb_spec i1 i2); try reflexivity; lia.
Qed.

Lemma setVoltage_steps_by_index_difference_witness :
  responsive Replay.t /\
  In 100 listOfVoltages /\
  In 300 listOfVoltages /\
  getVoltage (Dev:=Replay.t) 1 false
    ["00"; "D"; "E"; "D"; "E"; "100 V"; "U"; "U"; "U"; "U"; "300 V"; "E"; "00"]
  = mkOutcome (Ok 100) ["U"; "U"; "U"; "U"; "300 V"; "E"; "00"]
      [EvQuery "?W" (Some "00"); EvQuery "D" (Some "D"); EvQuery "E" (Some "E");
       EvQuery "D" (Some "D"); EvQuery "E" (Some "E");
       EvQuery "V" (Some "100 V")] /\
  exists i1 i2 steps r rest,
    Py.index 100 listOfVoltages = Some i1 /\
    Py.index 300 listOfVoltages = Some i2 /\
    trace (setVoltage (Dev:=Replay.t) 1 300
             ["00"; "D"; "E"; "D"; "E"; "100 V"; "U"; "U"; "U"; "U"; "300 V";
              "E"; "00"])
    = [EvQuery "?W" (Some "00"); EvQuery "D" (Some "D"); EvQuery "E" (Some "E");
       EvQuery "D" (Some "D"); EvQuery "E" (Some "E");
       EvQuery "V" (Some "100 V")]
        ++ steps ++ EvQuery "V" (Some r) :: rest /\
    sent steps = repeat (if i1 <? i2 then "U" else "D") (Z.abs_nat (i2 - i1)) /\
    after_read_back 300 r rest.
Proof.
  assert (I1 : In 100 listOfVoltages) by (apply mem_In; reflexivity).
  assert (I2 : In 300 listOfVoltages) by (apply mem_In; reflexivity).
  split; [exact replay_responsive|]. split; [exact I1|]. split; [exact I2|].
  split; [reflexivity|].
  exact (setVoltage_steps_by_index_difference (Dev:=Replay.t) 1 100 300
           ["00"; "D"; "E"; "D"; "E"; "100 V"; "U"; "U"; "U"; "U"; "300 V";
            "E"; "00"]
           ["U"; "U"; "U"; "U"; "300 V"; "E"; "00"]
           [EvQuery "?W" (Some "00"); EvQuery "D" (Some "D");
            EvQuery "E" (Some "E"); EvQuery "D" (Some "D");
            EvQuery "E" (Some "E"); EvQuery "V" (Some "100 V")]
           replay_responsive I1 I2 eq_refl).
Defined.

(** The example of the specification: from 100 V (position 2) to 300 V
    (position 6), four "U" and then the read-back "V"; the reply "300 V" is
    accepted and confirmed with "E". *)
Example setVoltage_100_to_300 :
  Py.index 100 listOfVoltages = Some 2 /\
  Py.index 300 listOfVoltages = Some 6 /\
  setVoltage (Dev:=Replay.t) 1 300
    ["00"; "D"; "E"; "D"; "E"; "100 V"; "U"; "U"; "U"; "U"; "300 V"; "E"; "00"]
  = mkOutcome (Ok tt) []
      [EvQuery "?W" (Some "00"); EvQuery "D" (Some "D"); EvQuery "E" (Some "E");
       EvQuery "D" (Some "D"); EvQuery "E" (Some "E");
       EvQuery "V" (Some "100 V");
       EvQuery "U" (Some "U"); EvQuery "U" (Some "U"); EvQuery "U" (Some "U");
       EvQuery "U" (Some "U");
       EvQuery "V" (Some "300 V"); EvQuery "E" (Some "E");
       EvQuery "?W" (Some "00")].
Proof. repeat split. Qed.

(** C6, as amended.  When the read-back "V" after the steps is answered
    with a first token that reads as an integer other than the requested
    voltage, [setVoltage] prints the error and goes straight to
    [goToSetupPosition]: what follows the message in the log is the log of
    that navigation, which contains neither "E" nor "G"; the result is that
    of the navigation, and when it returns its last exchange is a position
    query answered "00".  When the first token does not read as an integer,
    the conversion raises [ValueError] right after the read-back: nothing
    is printed and nothing more is sent. *)
Theorem setVoltage_mismatch_aborts_and_returns_to_root
  {Dev : Type} `{Serial Dev} (fuel : nat) (voltage aVoltage i1 i2 : Z)
  (d d1 d2 d3 : Dev) (t1 steps : list event) (r token : string) :
  In voltage listOfVoltages ->
  getVoltage fuel false d = mkOutcome (Ok aVoltage) d1 t1 ->
  Py.index aVoltage listOfVoltages = Some i1 ->
  Py.index voltage listOfVoltages = Some i2 ->
  setVoltage_step (i2 - i1) d1 = mkOutcome (Ok tt) d2 steps ->
  query d2 "V" = (Some r, d3) ->
  nth_error (Py.split_ws r) 0 = Some token ->
  (forall n,
      Py.int token = Some n ->
      n <> voltage ->
      setVoltage fuel voltage d
      = mkOutcome (res (goToSetupPosition fuel d3))
          (dev (goToSetupPosition fuel d3))
          (t1 ++ steps
              ++ EvQuery "V" (Some r)
              :: EvPrint "Error setting the requested voltage, operation aborted."
              :: trace (goToSetupPosition fuel d3)) /\
      ~ In "E" (sent (trace (goToSetupPosition fuel d3))) /\
      ~ In "G" (sent (trace (goToSetupPosition fuel d3))) /\
      (res (setVoltage fuel voltage d) = Ok tt ->
       exists t,
         trace (goToSetupPosition fuel d3) = t ++ [EvQuery "?W" (Some "00")])) /\
  (Py.int token = None ->
   setVoltage fuel voltage d
   = mkOutcome (Raise ValueError) d3 (t1 ++ steps ++ [EvQuery "V" (Some r)])).
Proof.
  intros I G E1 E2 S Q T. split.
  - intros n P N.
    assert (E : setVoltage fuel voltage d
                = mkOutcome (res (goToSetupPosition fuel d3))
                    (dev (goToSetupPosition fuel d3))
                    (t1 ++ steps
                        ++ EvQuery "V" (Some r)
                        :: EvPrint "Error setting the requested voltage, operation aborted."
                        :: trace (goToSetupPosition fuel d3))).
    { rewrite (setVoltage_after_step fuel voltage d aVoltage d1 t1 i1 i2 d2 steps
                 I G E1 E2 S).
      rewrite (setVoltage_check_mismatch fuel voltage d2 r d3 token n Q T P N).
      reflexivity. }
    pose proof (sent_goToSetupPosition fuel d3) as F.
    rewrite Forall_forall in F.
    split; [exact E|]. split; [|split].
    + intros X. apply F in X. simpl in X.
      destruct X as [X|[X|[X|[X|[]]]]]; discriminate X.
    + intros X. apply F in X. simpl in X.
      destruct X as [X|[X|[X|[X|[]]]]]; discriminate X.
    + rewrite E. cbn [res]. apply goToSetupPosition_exit.
  - intros P.
    rewrite (setVoltage_after_step fuel voltage d aVoltage d1 t1 i1 i2 d2 steps
               I G E1 E2 S).
    rewrite setVoltage_check_then.
    rewrite (bind_ok _ _ _ _ _ _ (sendCommand_answered _ false _ _ _ Q)).
    rewrite exchange_unchecked.
    rewrite (bind_try_some _ _ _ _ _ T), P. reflexivity.
Qed.

Lemma setVoltage_mismatch_aborts_and_returns_to_root_witness :
  (Py.int "250" = Some 250 /\
   250 <> 300 /\
   setVoltage (Dev:=Replay.t) 1 300
     ["00"; "D"; "E"; "D"; "E"; "100 V"; "U"; "U"; "U"; "U"; "250 V"; "00"]
   = mkOutcome (res (goToSetupPosition (Dev:=Replay.t) 1 ["00"]))
       (dev (goToSetupPosition (Dev:=Replay.t) 1 ["00"]))
       ([EvQuery "?W" (Some "00"); EvQuery "D" (Some "D"); EvQuery "E" (Some "E");
         EvQuery "D" (Some "D"); EvQuery "E" (Some "E");
         EvQuery "V" (Some "100 V")]
          ++ [EvQuery "U" (Some "U"); EvQuery "U" (Some "U");
              EvQuery "U" (Some "U"); EvQuery "U" (Some "U")]
          ++ EvQuery "V" (Some "250 V")
          :: EvPrint "Error setting the requested voltage, operation aborted."
          :: trace (goToSetupPosition (Dev:=Replay.t) 1 ["00"])) /\
   ~ In "E" (sent (trace (goToSetupPosition (Dev:=Replay.t) 1 ["00"]))) /\
   ~ In "G" (sent (trace (goToSetupPosition (Dev:=Replay.t) 1 ["00"]))) /\
   (res (setVoltage (Dev:=Replay.t) 1 300
           ["00"; "D"; "E"; "D"; "E"; "100 V"; "U"; "U"; "U"; "U"; "250 V"; "00"])
    = Ok tt ->
    exists t,
      trace (goToSetupPosition (Dev:=Replay.t) 1 ["00"])
      = t ++ [EvQuery "?W" (Some "00")])) /\
  (Py.int "ERR" = None /\
   setVoltage (Dev:=Replay.t) 1 300
     ["00"; "D"; "E"; "D"; "E"; "100 V"; "U"; "U"; "U"; "U"; "ERR 7"; "00"]
   = mkOutcome (Raise ValueError) ["00"]
       ([EvQuery "?W" (Some "00"); EvQuery "D" (Some "D"); EvQuery "E" (Some "E");
         EvQuery "D" (Some "D"); EvQuery "E" (Some "E");
         EvQuery "V" (Some "100 V")]
          ++ [EvQuery "U" (Some "U"); EvQuery "U" (Some "U");
              EvQuery "U" (Some "U"); EvQuery "U" (Some "U")]
          ++ [EvQuery "V" (Some "ERR 7")])).
Proof.
  assert (I : In 300 listOfVoltages) by (apply mem_In; reflexivity).
  assert (N : 250 <> 300) by discriminate.
  split.
  - split; [reflexivity|]. split; [exact N|].
    exact (proj1
             (setVoltage_mismatch_aborts_and_returns_to_root (Dev:=Replay.t)
                1 300 100 2 6
                ["00"; "D"; "E"; "D"; "E"; "100 V"; "U"; "U"; "U"; "U"; "250 V";
                 "00"]
                ["U"; "U"; "U"; "U"; "250 V"; "00"]
                ["250 V"; "00"] ["00"]
                _ _ "250 V" "250"
                I eq_refl eq_refl eq_refl eq_refl (replay_query _ _ _)
                eq_refl)
             250 eq_refl N).
  - split; [reflexivity|].
    exact (proj2
             (setVoltage_mismatch_aborts_and_returns_to_root (Dev:=Replay.t)
                1 300 100 2 6
                ["00"; "D"; "E"; "D"; "E"; "100 V"; "U"; "U"; "U"; "U"; "ERR 7";
                 "00"]
                ["U"; "U"; "U"; "U"; "ERR 7"; "00"]
                ["ERR 7"; "00"] ["00"]
                _ _ "ERR 7" "ERR"
                I eq_refl eq_refl eq_refl eq_refl (replay_query _ _ _)
                eq_refl)
             eq_refl).
Defined.

(** C6, as stated, fails: with the read-back "250.0 V" after a request for
    300 V, the first token "250.0" is not the requested voltage, yet
    [setVoltage] ends with [ValueError] right after the read-back; nothing
    is printed and there is no navigation back to the setup position. *)
Lemma setVoltage_unreadable_read_back_raises :
  nth_error (Py.split_ws "250.0 V") 0 = Some "250.0" /\
  "250.0" <> Py.str 300 /\
  setVoltage (Dev:=Replay.t) 1 300
    ["00"; "D"; "E"; "D"; "E"; "100 V"; "U"; "U"; "U"; "U"; "250.0 V"; "00"]
  = mkOutcome (Raise ValueError) ["00"]
      [EvQuery "?W" (Some "00"); EvQuery "D" (Some "D"); EvQuery "E" (Some "E");
       EvQuery "D" (Some "D"); EvQuery "E" (Some "E");
       EvQuery "V" (Some "100 V");
       EvQuery "U" (Some "U"); EvQuery "U" (Some "U"); EvQuery "U" (Some "U");
       EvQuery "U" (Some "U");
       EvQuery "V" (Some "250.0 V")] /\
  console
    (trace
       (setVoltage (Dev:=Replay.t) 1 300
          ["00"; "D"; "E"; "D"; "E"; "100 V"; "U"; "U"; "U"; "U"; "250.0 V";
           "00"]))
  = [].
Proof.
  split; [reflexivity|]. split; [discriminate|]. split; reflexivity.
Qed.

(** That run in full: the message, then the position query, and no "E". *)
Example setVoltage_read_back_250 :
  setVoltage (Dev:=Replay.t) 1 300
    ["00"; "D"; "E"; "D"; "E"; "100 V"; "U"; "U"; "U"; "U"; "250 V"; "00"]
  = mkOutcome (Ok tt) []
      [EvQuery "?W" (Some "00"); EvQuery "D" (Some "D"); EvQuery "E" (Some "E");
       EvQuery "D" (Some "D"); EvQuery "E" (Some "E");
       EvQuery "V" (Some "100 V");
       EvQuery "U" (Some "U"); EvQuery "U" (Some "U"); EvQuery "U" (Some "U");
       EvQuery "U" (Some "U");
       EvQuery "V" (Some "250 V");
       EvPrint "Error setting the requested voltage, operation aborted.";
       EvQuery "?W" (Some "00")].
Proof. reflexivity. Qed.

(** * Further properties of the driver *)

(** ** Fields of a reply *)

Lemma str_app_nil_r (s : string) : (s ++ "")%string = s.
Proof. induction s as [|c s IH]; simpl; [reflexivity|now rewrite IH]. Qed.

Lemma str_app_assoc (s1 s2 s3 : string) :
  ((s1 ++ s2) ++ s3)%string = (s1 ++ (s2 ++ s3))%string.
Proof. induction s1 as [|c s1 IH]; simpl; [reflexivity|now rewrite IH]. Qed.

Lemma str_length_app (s1 s2 : string) :
  String.length (s1 ++ s2)%string = (String.length s1 + String.length s2)%nat.
Proof. induction s1 as [|c s1 IH]; simpl; [reflexivity|now rewrite IH]. Qed.

Lemma split_on_from_not_nil sep tok s : Py.split_on_from sep tok s <> [].
Proof.
  revert tok. induction s as [|c s IH]; intros tok; simpl; [discriminate|].
  destruct (c =? sep)%char; [discriminate|apply IH].
Qed.

Lemma join_space_cons x xs :
  xs <> [] ->
  Py.join_space (x :: xs) = (x ++ String " " (Py.join_space xs))%string.
Proof. destruct xs; [contradiction|reflexivity]. Qed.

Lemma join_split_on_from tok s :
  Py.join_space (Py.split_on_from " " tok s) = (tok ++ s)%string.
Proof.
  revert tok. induction s as [|c s IH]; intros tok; simpl.
  - now rewrite str_app_nil_r.
  - destruct (Ascii.eqb_spec c " ") as [->|N].
    + rewrite join_space_cons by apply split_on_from_not_nil.
      now rewrite IH.
    + rewrite IH, str_app_assoc. reflexivity.
Qed.

Lemma length_split_on_from tok s :
  List.length (Py.split_on_from " " tok s) = S (spaces s).
Proof.
  revert tok. induction s as [|c s IH]; intros tok; simpl; [reflexivity|].
  destruct (c =? " ")%char; simpl; now rewrite IH.
Qed.

(** No field of a reply split at the spaces contains a space. *)
Lemma spaces_split_on_from tok s :
  spaces tok = O ->
  Forall (fun field => spaces field = O) (Py.split_on_from " " tok s).
Proof.
  revert tok. induction s as [|c s IH]; intros tok T; simpl.
  - constructor; [exact T|constructor].
  - destruct (Ascii.eqb_spec c " ") as [->|N].
    + constructor; [exact T|]. now apply IH.
    + apply IH. clear IH. induction tok as [|a tok IHt]; simpl in *.
      * apply Ascii.eqb_neq in N. now rewrite N.
      * destruct (a =? " ")%char; [discriminate|]. now apply IHt.
Qed.

Lemma first_long_spec strings :
  (first_long strings = "" /\
   Forall (fun s => (String.length s <= 1)%nat) strings) \/
  (exists before after,
      strings = before ++ first_long strings :: after /\
      Forall (fun s => (String.length s <= 1)%nat) before /\
      (1 < String.length (first_long strings))%nat).
Proof.
  induction strings as [|s strings IH]; simpl.
  - left. split; [reflexivity|constructor].
  - destruct (Nat.ltb_spec 1 (String.length s)) as [L|L].
    + right. exists [], strings. repeat split; [constructor|exact L].
    + destruct IH as [[E F]|[before [after [E [F L']]]]].
      * left. split; [exact E|]. constructor; assumption.
      * right. exists (s :: before), after. repeat split.
        -- simpl. now rewrite <- E.
        -- constructor; assumption.
        -- exact L'.
Qed.

Section Replies.

Context {Dev : Type} `{Serial Dev}.

Lemma getRange_unfold d r d' :
  query d "?R" = (Some r, d') ->
  getRange d
  = match nth_error (Py.split_on " " r) 2, nth_error (Py.split_on " " r) 3 with
    | Some third, Some fourth =>
        mkOutcome
          (Ok (first_long (Py.split_on " " r),
               (third ++ " " ++ fourth ++ "C")%string))
          d' [EvQuery "?R" (Some r)]
    | _, _ => mkOutcome (Raise IndexError) d' [EvQuery "?R" (Some r)]
    end.
Proof.
  intros Q. unfold getRange.
  rewrite (bind_ok _ _ _ _ _ _ (sendCommand_answered _ false _ _ _ Q)).
  rewrite exchange_unchecked. cbv zeta.
  destruct (nth_error (Py.split_on " " r) 2) as [third|]; [|reflexivity].
  rewrite (bind_try_some _ _ _ _ _ eq_refl).
  destruct (nth_error (Py.split_on " " r) 3) as [fourth|]; [|reflexivity].
  rewrite (bind_try_some _ _ _ _ _ eq_refl). reflexivity.
Qed.

End Replies.

(** X1.  [getRange] needs four fields: when the reply to "?R" has fewer
    than three spaces it raises [IndexError]; with three spaces or more it
    returns, and the second component of the result is the third field, a
    space, the fourth field and the letter "C". *)
Theorem getRange_needs_three_spaces
  {Dev : Type} `{Serial Dev} (d d' : Dev) (r : string) :
  query d "?R" = (Some r, d') ->
  ((spaces r < 3)%nat ->
   getRange d = mkOutcome (Raise IndexError) d' [EvQuery "?R" (Some r)]) /\
  ((3 <= spaces r)%nat ->
   exists third fourth,
     nth_error (Py.split_on " " r) 2 = Some third /\
     nth_error (Py.split_on " " r) 3 = Some fourth /\
     getRange d
     = mkOutcome
         (Ok (first_long (Py.split_on " " r),
              (third ++ " " ++ fourth ++ "C")%string))
         d' [EvQuery "?R" (Some r)]).
Proof.
  intros Q. rewrite (getRange_unfold d r d' Q).
  pose proof (length_split_on_from "" r) as L. fold (Py.split_on " " r) in L.
  split; intros S.
  - assert (N : nth_error (Py.split_on " " r) 3 = None)
      by (apply nth_error_None; lia).
    rewrite N. destruct (nth_error (Py.split_on " " r) 2); reflexivity.
  - destruct (nth_error (Py.split_on " " r) 2) as [third|] eqn:E2;
      [|apply nth_error_None in E2; lia].
    destruct (nth_error (Py.split_on " " r) 3) as [fourth|] eqn:E3;
      [|apply nth_error_None in E3; lia].
    exists third, fourth. repeat split.
Qed.

Lemma getRange_needs_three_spaces_witness :
  query (Dev:=Replay.t) ["R Low  2.2 n"] "?R" = (Some "R Low  2.2 n", []) /\
  ((spaces "R Low  2.2 n" < 3)%nat ->
   getRange (Dev:=Replay.t) ["R Low  2.2 n"]
   = mkOutcome (Raise IndexError) [] [EvQuery "?R" (Some "R Low  2.2 n")]) /\
  ((3 <= spaces "R Low  2.2 n")%nat ->
   exists third fourth,
     nth_error (Py.split_on " " "R Low  2.2 n") 2 = Some third /\
     nth_error (Py.split_on " " "R Low  2.2 n") 3 = Some fourth /\
     getRange (Dev:=Replay.t) ["R Low  2.2 n"]
     = mkOutcome
         (Ok (first_long (Py.split_on " " "R Low  2.2 n"),
              (third ++ " " ++ fourth ++ "C")%string))
         [] [EvQuery "?R" (Some "R Low  2.2 n")]).
Proof.
  split; [reflexivity|].
  exact (getRange_needs_three_spaces (Dev:=Replay.t)
           ["R Low  2.2 n"] [] "R Low  2.2 n" eq_refl).
Defined.

(** X2.  The first component of what [getRange] returns is the first field
    of the reply that is longer than one character, and the empty string
    when every field has at most one character. *)
Theorem getRange_label_is_first_long_field
  {Dev : Type} `{Serial Dev} (d d' : Dev) (r label maximum : string) :
  query d "?R" = (Some r, d') ->
  res (getRange d) = Ok (label, maximum) ->
  (label = "" /\
   Forall (fun s => (String.length s <= 1)%nat) (Py.split_on " " r)) \/
  (exists before after,
      Py.split_on " " r = before ++ label :: after /\
      Forall (fun s => (String.length s <= 1)%nat) before /\
      (1 < String.length label)%nat).
Proof.
  intros Q. rewrite (getRange_unfold d r d' Q).
  destruct (nth_error (Py.split_on " " r) 2); [|discriminate].
  destruct (nth_error (Py.split_on " " r) 3); [|discriminate].
  cbn [res]. intros E. injection E as <- _.
  apply first_long_spec.
Qed.

Lemma getRange_label_is_first_long_field_witness :
  (res (getRange (Dev:=Replay.t) ["R Low  2.2 n"]) = Ok ("Low", " 2.2C")) /\
  ((("Low" = "" /\
     Forall (fun s => (String.length s <= 1)%nat)
       (Py.split_on " " "R Low  2.2 n")) \/
    (exists before after,
        Py.split_on " " "R Low  2.2 n" = before ++ "Low" :: after /\
        Forall (fun s => (String.length s <= 1)%nat) before /\
        (1 < String.length "Low")%nat))).
Proof.
  split; [reflexivity|].
  exact (getRange_label_is_first_long_field (Dev:=Replay.t)
           ["R Low  2.2 n"] [] "R Low  2.2 n" "Low" " 2.2C" eq_refl eq_refl).
Defined.

(** X3.  [getReading] splits the reply to "V" at every space: joining the
    fields it returns with single spaces gives the reply back, there is one
    field more than there are spaces, and no field contains a space. *)
Theorem getReading_fields_rebuild_reply
  {Dev : Type} `{Serial Dev} (d d' : Dev) (r : string) :
  query d "V" = (Some r, d') ->
  exists fields,
    getReading d = mkOutcome (Ok fields) d' [EvQuery "V" (Some r)] /\
    Py.join_space fields = r /\
    List.length fields = S (spaces r) /\
    Forall (fun field => spaces field = O) fields.
Proof.
  intros Q. exists (Py.split_on " " r). split; [|split; [|split]].
  - unfold getReading.
    rewrite (bind_ok _ _ _ _ _ _ (sendCommand_answered _ false _ _ _ Q)).
    now rewrite exchange_unchecked.
  - apply (join_split_on_from "" r).
  - apply length_split_on_from.
  - now apply spaces_split_on_from.
Qed.

Lemma getReading_fields_rebuild_reply_witness :
  query (Dev:=Replay.t) [" 10s  1.5E-9 C"] "V" = (Some " 10s  1.5E-9 C", []) /\
  exists fields,
    getReading (Dev:=Replay.t) [" 10s  1.5E-9 C"]
    = mkOutcome (Ok fields) [] [EvQuery "V" (Some " 10s  1.5E-9 C")] /\
    Py.join_space fields = " 10s  1.5E-9 C" /\
    List.length fields = S (spaces " 10s  1.5E-9 C") /\
    Forall (fun field => spaces field = O) fields.
Proof.
  split; [reflexivity|].
  exact (getReading_fields_rebuild_reply (Dev:=Replay.t)
           [" 10s  1.5E-9 C"] [] " 10s  1.5E-9 C" eq_refl).
Defined.

(** ** Navigation: malformed positions and instruments that never get there *)

(** X4.  A position reply that is empty, or the single character "0", makes
    [goToSetupPosition] raise [IndexError] right after the position query:
    no move is sent. *)
Theorem goToSetupPosition_short_position_raises
  {Dev : Type} `{Serial Dev} (fuel : nat) (d d' : Dev) (r : string) :
  query d "?W" = (Some r, d') ->
  r = "" \/ r = "0" ->
  goToSetupPosition (S fuel) d
  = mkOutcome (Raise IndexError) d' [EvQuery "?W" (Some r)].
Proof.
  intros Q R. unfold goToSetupPosition.
  rewrite (bind_ok _ _ _ _ _ _ (getPosition_answered _ _ _ Q)).
  destruct R as [-> | ->]; reflexivity.
Qed.

Lemma goToSetupPosition_short_position_raises_witness :
  query (Dev:=Replay.t) ["0"] "?W" = (Some "0", []) /\
  ("0" = "" \/ "0" = "0") /\
  goToSetupPosition (Dev:=Replay.t) 1 ["0"]
  = mkOutcome (Raise IndexError) [] [EvQuery "?W" (Some "0")].
Proof.
  split; [reflexivity|]. split; [right; reflexivity|].
  exact (goToSetupPosition_short_position_raises (Dev:=Replay.t)
           0 ["0"] [] "0" eq_refl (or_intror eq_refl)).
Defined.

(** X5.  The loop of [goToSetupPosition] has no bound of its own.  Against
    an instrument that always answers and whose position replies, in the
    states [stuck] it can be in, have two characters or more and are never
    "00", every allowance of passes is used up: the run sends
    [2 * fuel + 1] commands, one position query and then a move and a
    position query for each of the [fuel] passes, and is cut short. *)
Theorem goToSetupPosition_never_gives_up
  {Dev : Type} `{Serial Dev} (stuck : Dev -> Prop) :
  (forall d command,
      stuck d ->
      exists r d',
        query d command = (Some r, d') /\ stuck d' /\
        (command = "?W" -> r <> "00" /\ (2 <= String.length r)%nat)) ->
  forall fuel d,
    stuck d ->
    res (goToSetupPosition fuel d) = OutOfFuel /\
    List.length (sent (trace (goToSetupPosition fuel d))) = (2 * fuel + 1)%nat.
Proof.
  intros S.
  assert (L : forall fuel r d,
             stuck d -> r <> "00" -> (2 <= String.length r)%nat ->
             res (setup_loop fuel r d) = OutOfFuel /\
             List.length (sent (trace (setup_loop fuel r d))) = (2 * fuel)%nat).
  { induction fuel as [|fuel IH]; intros r d K N Len.
    - simpl. apply String.eqb_neq in N. rewrite N. split; reflexivity.
    - rewrite setup_loop_pass by exact N.
      assert (Mv : exists command a d1,
                 stuck d1 /\
                 setup_move r d
                 = mkOutcome (Ok tt) d1 (exchange command true a)).
      { destruct r as [|c0 [|c1 r]]; simpl in Len; try lia.
        destruct r as [|c2 r].
        - destruct (Ascii.eqb_spec c0 "0") as [->|N0].
          + destruct (S d "U" K) as [a [d1 [Q [K1 _]]]].
            exists "U", a, d1. split; [exact K1|].
            apply setup_move_sub_answered; [congruence|exact Q].
          + destruct (S d "M0" K) as [a [d1 [Q [K1 _]]]].
            exists "M0", a, d1. split; [exact K1|].
            apply setup_move_top_answered; [exact N0|exact Q].
        - destruct (S d "C" K) as [a [d1 [Q [K1 _]]]].
          exists "C", a, d1. split; [exact K1|].
          apply setup_move_deep_answered; [simpl; lia|exact Q]. }
      destruct Mv as [command [a [d1 [K1 Mv]]]].
      rewrite (bind_ok _ _ _ _ _ _ Mv).
      destruct (S d1 "?W" K1) as [r' [d2 [Q [K2 P]]]].
      destruct (P eq_refl) as [N' Len'].
      rewrite (bind_ok _ _ _ _ _ _ (getPosition_answered _ _ _ Q)).
      destruct (IH r' d2 K2 N' Len') as [R T].
      cbn [res trace]. split; [exact R|].
      rewrite sent_app, sent_exchange. cbn [app sent List.length].
      rewrite T. lia. }
  intros fuel d K. unfold goToSetupPosition.
  destruct (S d "?W" K) as [r [d1 [Q [K1 P]]]].
  destruct (P eq_refl) as [N Len].
  rewrite (bind_ok _ _ _ _ _ _ (getPosition_answered _ _ _ Q)).
  destruct (L fuel r d1 K1 N Len) as [R T].
  cbn [res trace]. split; [exact R|].
  cbn [app sent List.length]. rewrite T. lia.
Qed.

Lemma goToSetupPosition_never_gives_up_witness :
  (forall (d : Replay.t) command,
      d = [] ->
      exists r d',
        query d command = (Some r, d') /\ d' = [] /\
        (command = "?W" -> r <> "00" /\ (2 <= String.length r)%nat)) /\
  res (goToSetupPosition (Dev:=Replay.t) 7 []) = OutOfFuel /\
  List.length (sent (trace (goToSetupPosition (Dev:=Replay.t) 7 [])))
  = (2 * 7 + 1)%nat.
Proof.
  assert (S : forall (d : Replay.t) command,
             d = [] ->
             exists r d',
               query d command = (Some r, d') /\ d' = [] /\
               (command = "?W" -> r <> "00" /\ (2 <= String.length r)%nat)).
  { intros d command ->. exists command, []. split; [reflexivity|].
    split; [reflexivity|]. intros ->. split; [discriminate|simpl; lia]. }
  split; [exact S|].
  exact (goToSetupPosition_never_gives_up (Dev:=Replay.t)
           (fun d => d = []) S 7%nat [] eq_refl).
Defined.

(** ** Polling: the null and the integration *)

Section Polling.

Context {Dev : Type} `{Serial Dev}.

Lemma bind_returns_inv {A B} (m : M Dev A) (k : A -> M Dev B) d b d2 t :
  bind m k d = mkOutcome (Ok b) d2 t ->
  exists a d1 t1 t2,
    m d = mkOutcome (Ok a) d1 t1 /\
    k a d1 = mkOutcome (Ok b) d2 t2 /\
    t = t1 ++ t2.
Proof.
  unfold bind. destruct (m d) as [[a|e|] d1 t1]; simpl; try discriminate.
  destruct (k a d1) as [r d2' t2] eqn:K. simpl.
  intros E. injection E as Er Ed Et. subst r d2' t.
  exists a, d1, t1, t2. split; [reflexivity|]. split; [exact K|reflexivity].
Qed.

Lemma getStatus_ok_inv d s :
  res (getStatus d) = Ok s ->
  trace (getStatus d) = [EvQuery "?S" (Some s)].
Proof.
  unfold getStatus. destruct (query d "?S") as [[a|] d'] eqn:Q.
  - rewrite (sendCommand_answered _ _ _ _ _ Q), exchange_unchecked.
    simpl. congruence.
  - rewrite (sendCommand_timeout _ _ _ _ Q). discriminate.
Qed.

(** A polling loop that returns has asked at most [fuel] times with the
    answer it waits on, slept after each, and stopped at the first other
    answer. *)
Lemma wait_while_returns status pause fuel : forall d,
  res (wait_while fuel status pause d) = Ok tt ->
  exists k s,
    (k <= fuel)%nat /\ s <> status /\
    trace (wait_while fuel status pause d) = polls status pause k s.
Proof.
  induction fuel as [|fuel IH]; intros d R.
  - cbn [wait_while] in *.
    apply bind_ok_inv in R. destruct R as [s [G [R T]]]. rewrite T.
    rewrite (getStatus_ok_inv _ _ G).
    destruct (String.eqb_spec s status) as [->|N]; [discriminate R|].
    exists O, s. repeat split; [lia|exact N].
  - cbn [wait_while] in *.
    apply bind_ok_inv in R. destruct R as [s [G [R T]]]. rewrite T.
    rewrite (getStatus_ok_inv _ _ G).
    destruct (String.eqb_spec s status) as [->|N].
    + apply bind_ok_inv in R. destruct R as [[] [Sl [R T']]]. rewrite T'.
      unfold sleep in *.
      destruct ((pause <? - sleep_max) || (sleep_max <? pause));
        [discriminate Sl|].
      destruct (pause <? 0); [discriminate Sl|].
      cbn [emit dev trace] in *.
      destruct (IH _ R) as [k [s [K [N E]]]]. rewrite E.
      exists (S k), s. repeat split; [lia|exact N].
    + exists O, s. repeat split; [lia|exact N].
Qed.

Lemma slept_polls status pause k s :
  slept (polls status pause k s) = pause * Z.of_nat k.
Proof.
  induction k as [|k IH]; [simpl; lia|].
  cbn [polls slept]. rewrite IH. lia.
Qed.

End Polling.

(** X6.  When [doNull] returns, it has sent "N", slept 75 seconds, and then
    asked for the status until the answer was no longer "NUL", sleeping 5
    seconds after each "NUL": with [k] such answers it slept [75 + 5 k]
    seconds in all, and the last exchange is a status query answered with
    something else than "NUL". *)
Theorem doNull_polls_until_not_NUL
  {Dev : Type} `{Serial Dev} (fuel : nat) (d : Dev) :
  res (doNull fuel d) = Ok tt ->
  exists a k s,
    (k <= fuel)%nat /\ s <> "NUL" /\
    trace (doNull fuel d)
    = EvQuery "N" (Some a) :: EvSleep 75 :: polls "NUL" 5 k s /\
    slept (trace (doNull fuel d)) = 75 + 5 * Z.of_nat k.
Proof.
  assert (U : doNull fuel d
              = bind (_sendCommand "N" false)
                  (fun _ => bind (emit (EvSleep 75))
                              (fun _ => wait_while fuel "NUL" 5)) d)
    by reflexivity.
  rewrite U. clear U. intros R.
  apply bind_ok_inv in R. destruct R as [a [Q [R T]]].
  assert (Qt : trace (_sendCommand "N" false d) = [EvQuery "N" (Some a)]).
  { destruct (query d "N") as [[a'|] d'] eqn:E.
    - rewrite (sendCommand_answered _ _ _ _ _ E), exchange_unchecked in *.
      simpl in *. congruence.
    - rewrite (sendCommand_timeout _ _ _ _ E) in Q. discriminate. }
  apply bind_ok_inv in R. destruct R as [[] [_ [R T']]].
  cbn [emit dev trace] in R, T'.
  destruct (wait_while_returns _ _ _ _ R) as [k [s [K [N E]]]].
  exists a, k, s. split; [exact K|]. split; [exact N|].
  rewrite T, Qt, T', E.
  split; [reflexivity|].
  cbn [app slept]. rewrite slept_polls. lia.
Qed.

Lemma doNull_polls_until_not_NUL_witness :
  res (doNull (Dev:=Replay.t) 5 ["N"; "NUL"; "NUL"; "RES"]) = Ok tt /\
  exists a k s,
    (k <= 5)%nat /\ s <> "NUL" /\
    trace (doNull (Dev:=Replay.t) 5 ["N"; "NUL"; "NUL"; "RES"])
    = EvQuery "N" (Some a) :: EvSleep 75 :: polls "NUL" 5 k s /\
    slept (trace (doNull (Dev:=Replay.t) 5 ["N"; "NUL"; "NUL"; "RES"]))
    = 75 + 5 * Z.of_nat k.
Proof.
  split; [reflexivity|].
  exact (doNull_polls_until_not_NUL (Dev:=Replay.t) 5
           ["N"; "NUL"; "NUL"; "RES"] eq_refl).
Defined.

Lemma bind_emit {Dev B} (e : event) (k : unit -> M Dev B) d :
  bind (emit e) k d
  = mkOutcome (res (k tt d)) (dev (k tt d)) (e :: trace (k tt d)).
Proof. reflexivity. Qed.

(** X7.  Against the replayed instrument, [doNull] does return when the
    status leaves "NUL": with [k] answers "NUL" followed by another answer
    and an allowance of at least [k] passes, it returns after exactly those
    [k + 1] status queries. *)
Theorem doNull_returns_when_status_changes
  (a s : string) (k fuel : nat) (rest : Replay.t) :
  s <> "NUL" ->
  (k <= fuel)%nat ->
  doNull (Dev:=Replay.t) fuel (a :: repeat "NUL" k ++ s :: rest)
  = mkOutcome (Ok tt) rest
      (EvQuery "N" (Some a) :: EvSleep 75 :: polls "NUL" 5 k s).
Proof.
  intros N K.
  assert (W : forall k fuel,
             (k <= fuel)%nat ->
             wait_while (Dev:=Replay.t) fuel "NUL" 5 (repeat "NUL" k ++ s :: rest)
             = mkOutcome (Ok tt) rest (polls "NUL" 5 k s)).
  { clear k fuel K. induction k as [|k IH]; intros fuel K.
    - assert (E : wait_while (Dev:=Replay.t) fuel "NUL" 5 (s :: rest)
                  = bind getStatus
                      (fun s' => if (s' =? "NUL")%string
                                 then match fuel with
                                      | O => out_of_fuel
                                      | S fuel' =>
                                          bind (sleep 5)
                                            (fun _ => wait_while fuel' "NUL" 5)
                                      end
                                 else ret tt) (s :: rest))
        by (destruct fuel; reflexivity).
      simpl repeat. simpl app. rewrite E.
      unfold getStatus.
      rewrite (bind_ok _ _ _ _ _ _
                 (sendCommand_answered (Dev:=Replay.t) "?S" false
                    (s :: rest) s rest (replay_query _ _ _))).
      rewrite exchange_unchecked.
      apply String.eqb_neq in N. rewrite N. reflexivity.
    - destruct fuel as [|fuel]; [lia|].
      cbn [repeat app wait_while]. unfold getStatus.
      rewrite (bind_ok _ _ _ _ _ _
                 (sendCommand_answered (Dev:=Replay.t) "?S" false
                    ("NUL" :: repeat "NUL" k ++ s :: rest) "NUL"
                    (repeat "NUL" k ++ s :: rest) (replay_query _ _ _))).
      rewrite exchange_unchecked. cbn [String.eqb Ascii.eqb Bool.eqb].
      change ("NUL" =? "NUL")%string with true. cbv iota.
      change (sleep (Dev:=Replay.t) 5) with (emit (Dev:=Replay.t) (EvSleep 5)).
      rewrite bind_emit, (IH fuel) by lia. reflexivity. }
  unfold doNull.
  rewrite (bind_ok _ _ _ _ _ _
             (sendCommand_answered (Dev:=Replay.t) "N" false
                (a :: repeat "NUL" k ++ s :: rest) a
                (repeat "NUL" k ++ s :: rest) (replay_query _ _ _))).
  rewrite exchange_unchecked.
  change (sleep (Dev:=Replay.t) 75) with (emit (Dev:=Replay.t) (EvSleep 75)).
  rewrite bind_emit, (W k fuel K). reflexivity.
Qed.

Lemma doNull_returns_when_status_changes_witness :
  "RES" <> "NUL" /\
  (2 <= 5)%nat /\
  doNull (Dev:=Replay.t) 5 ("N" :: repeat "NUL" 2 ++ "RES" :: ["left"])
  = mkOutcome (Ok tt) ["left"]
      (EvQuery "N" (Some "N") :: EvSleep 75 :: polls "NUL" 5 2 "RES").
Proof.
  assert (N : "RES" <> "NUL") by discriminate.
  assert (K : (2 <= 5)%nat) by lia.
  split; [exact N|]. split; [exact K|].
  exact (doNull_returns_when_status_changes "N" "RES" 2 5 ["left"] N K).
Defined.

Section IntegrationRun.

Context {Dev : Type} `{Serial Dev}.

Lemma wait_while_starts_with_query fuel status pause d :
  exists x rest,
    trace (wait_while fuel status pause d) = EvQuery "?S" x :: rest.
Proof.
  assert (G : exists x, trace (getStatus d) = [EvQuery "?S" x]).
  { unfold getStatus. destruct (query d "?S") as [[a|] d'] eqn:Q.
    - rewrite (sendCommand_answered _ _ _ _ _ Q), exchange_unchecked.
      eexists. reflexivity.
    - rewrite (sendCommand_timeout _ _ _ _ Q). eexists. reflexivity. }
  destruct G as [x G].
  destruct fuel; cbn [wait_while];
    match goal with
    | |- context [bind getStatus ?k] =>
        destruct (bind_trace_prefix getStatus k d) as [t E]
    end; rewrite E, G; exists x, t; reflexivity.
Qed.

End IntegrationRun.

(** X8.  In [integrate], once the integration time [T] has been read and
    "I" has been answered: for a time of at most 9999 seconds, the largest
    that [setIntegrationTime] accepts, the run sleeps [T + 1] seconds and
    only then asks for the status for the first time; for a reported time
    below -1 the sleep raises [ValueError], and for one whose length does
    not fit the time type it raises [OverflowError], in both cases after
    "I" was sent and before any status query. *)
Theorem integrate_sleeps_before_first_poll
  {Dev : Type} `{Serial Dev} (Float : Type) (float : string -> option Float)
  (fuel : nat) (T : Z) (d d1 d2 : Dev) (t1 : list event) (a : string) :
  getIntegrationTime fuel true d = mkOutcome (Ok T) d1 t1 ->
  query d1 "I" = (Some a, d2) ->
  (0 <= T + 1 /\ T <= 9999 ->
   exists x rest,
     trace (integrate_measure Float float fuel d)
     = t1 ++ exchange "I" true a ++ EvSleep (T + 1) :: EvQuery "?S" x :: rest) /\
  (- sleep_max <= T + 1 < 0 ->
   integrate_measure Float float fuel d
   = mkOutcome (Raise ValueError) d2 (t1 ++ exchange "I" true a)) /\
  (T + 1 < - sleep_max \/ sleep_max < T + 1 ->
   integrate_measure Float float fuel d
   = mkOutcome (Raise OverflowError) d2 (t1 ++ exchange "I" true a)).
Proof.
  intros G Q. unfold integrate_measure.
  rewrite (bind_ok _ _ _ _ _ _ G).
  rewrite (bind_ok _ _ _ _ _ _ (sendCommand_answered _ true _ _ _ Q)).
  cbn [res dev trace]. unfold sleep.
  assert (SM : sleep_max = 9223372036) by reflexivity.
  split; [|split]; intros S.
  - destruct (Z.ltb_spec (T + 1) (- sleep_max)) as [L|_]; [lia|].
    destruct (Z.ltb_spec sleep_max (T + 1)) as [L|_]; [lia|]. cbn [orb].
    destruct (Z.ltb_spec (T + 1) 0) as [L|_]; [lia|].
    rewrite bind_emit. cbn [trace].
    match goal with
    | |- context [bind (wait_while fuel "INT" 1) ?k d2] =>
        destruct (bind_trace_prefix (wait_while fuel "INT" 1) k d2) as [t E]
    end.
    rewrite E.
    destruct (wait_while_starts_with_query fuel "INT" 1 d2) as [x [rest W]].
    rewrite W. exists x, (rest ++ t). reflexivity.
  - destruct (Z.ltb_spec (T + 1) (- sleep_max)) as [L|_]; [lia|].
    destruct (Z.ltb_spec sleep_max (T + 1)) as [L|_]; [lia|]. cbn [orb].
    destruct (Z.ltb_spec (T + 1) 0) as [_|L]; [|lia].
    cbn. now rewrite app_nil_r.
  - replace ((T + 1 <? - sleep_max) || (sleep_max <? T + 1)) with true.
    + cbn. now rewrite app_nil_r.
    + symmetry. apply orb_true_iff.
      destruct S as [S|S]; [left|right]; apply Z.ltb_lt; exact S.
Qed.

Lemma integrate_sleeps_before_first_poll_witness :
  (getIntegrationTime (Dev:=Replay.t) 1 true
     ["00"; "E"; "E"; "10"; "00"; "I"; "INT"; "RES"; "10s 1.5E-9 C"]
   = mkOutcome (Ok 10) ["I"; "INT"; "RES"; "10s 1.5E-9 C"]
       [EvQuery "?W" (Some "00"); EvQuery "E" (Some "E"); EvQuery "E" (Some "E");
        EvQuery "V" (Some "10"); EvQuery "?W" (Some "00")] /\
   (0 <= 10 + 1 /\ 10 <= 9999) /\
   exists x rest,
     trace (integrate_measure (Dev:=Replay.t) Z Py.int 1
              ["00"; "E"; "E"; "10"; "00"; "I"; "INT"; "RES"; "10s 1.5E-9 C"])
     = [EvQuery "?W" (Some "00"); EvQuery "E" (Some "E"); EvQuery "E" (Some "E");
        EvQuery "V" (Some "10"); EvQuery "?W" (Some "00")]
         ++ exchange "I" true "I"
         ++ EvSleep (10 + 1) :: EvQuery "?S" x :: rest) /\
  (- sleep_max <= -5 + 1 < 0 /\
   integrate_measure (Dev:=Replay.t) Z Py.int 1
     ["00"; "E"; "E"; "-5"; "00"; "I"; "INT"]
   = mkOutcome (Raise ValueError) ["INT"]
       ([EvQuery "?W" (Some "00"); EvQuery "E" (Some "E"); EvQuery "E" (Some "E");
         EvQuery "V" (Some "-5"); EvQuery "?W" (Some "00")]
          ++ exchange "I" true "I")) /\
  ((100000000000000000000 + 1 < - sleep_max
    \/ sleep_max < 100000000000000000000 + 1) /\
   integrate_measure (Dev:=Replay.t) Z Py.int 1
     ["00"; "E"; "E"; "100000000000000000000"; "00"; "I"; "INT"]
   = mkOutcome (Raise OverflowError) ["INT"]
       ([EvQuery "?W" (Some "00"); EvQuery "E" (Some "E"); EvQuery "E" (Some "E");
         EvQuery "V" (Some "100000000000000000000"); EvQuery "?W" (Some "00")]
          ++ exchange "I" true "I")).
Proof.
  assert (S1 : 0 <= 10 + 1 /\ 10 <= 9999) by lia.
  assert (S2 : - sleep_max <= -5 + 1 < 0) by (vm_compute; split; congruence).
  assert (S3 : 100000000000000000000 + 1 < - sleep_max
               \/ sleep_max < 100000000000000000000 + 1)
    by (right; reflexivity).
  split; [|split].
  - split; [reflexivity|]. split; [exact S1|].
    exact (proj1 (integrate_sleeps_before_first_poll (Dev:=Replay.t) Z Py.int 1 10
                    ["00"; "E"; "E"; "10"; "00"; "I"; "INT"; "RES"; "10s 1.5E-9 C"]
                    ["I"; "INT"; "RES"; "10s 1.5E-9 C"]
                    ["INT"; "RES"; "10s 1.5E-9 C"]
                    _ "I" eq_refl (replay_query _ _ _)) S1).
  - split; [exact S2|].
    exact (proj1 (proj2
             (integrate_sleeps_before_first_poll (Dev:=Replay.t) Z Py.int 1 (-5)
                ["00"; "E"; "E"; "-5"; "00"; "I"; "INT"]
                ["I"; "INT"] ["INT"]
                _ "I" eq_refl (replay_query _ _ _))) S2).
  - split; [exact S3|].
    exact (proj2 (proj2
             (integrate_sleeps_before_first_poll (Dev:=Replay.t) Z Py.int 1
                100000000000000000000
                ["00"; "E"; "E"; "100000000000000000000"; "00"; "I"; "INT"]
                ["I"; "INT"] ["INT"]
                _ "I" eq_refl (replay_query _ _ _))) S3).
Defined.

(** X9.  The end of [integrate], for an integration time of at most 9999
    seconds: once the polling loop has returned and the raw reply to "V"
    has been read, the fields longer than one character are kept; the
    first, without its last character, is read as the elapsed time and the
    second is converted to the charge.  A time that differs from the
    integration time only prints "Integration time missmatch": the charge
    is returned all the same. *)
Theorem integrate_returns_second_field
  {Dev : Type} `{Serial Dev} (Float : Type) (float : string -> option Float)
  (fuel : nat) (T n : Z) (d d1 d2 d3 d4 : Dev) (t1 t3 : list event)
  (a raw first second : string) (more : list string) :
  getIntegrationTime fuel true d = mkOutcome (Ok T) d1 t1 ->
  query d1 "I" = (Some a, d2) ->
  0 <= T + 1 ->
  T <= 9999 ->
  wait_while fuel "INT" 1 d2 = mkOutcome (Ok tt) d3 t3 ->
  read_raw (write d3 "V") = (Some raw, d4) ->
  filter (fun value => (1 <? String.length value)%nat) (Py.split_on " " raw)
  = first :: second :: more ->
  Py.int (Py.drop_last first) = Some n ->
  integrate_measure Float float fuel d
  = mkOutcome
      (match float second with
       | Some charge => Ok charge
       | None => Raise ValueError
       end)
      d4
      (t1 ++ exchange "I" true a
          ++ EvSleep (T + 1)
          :: t3
          ++ EvWrite "V"
          :: EvReadRaw (Some raw)
          :: (if n =? T then [] else [EvPrint "Integration time missmatch"])).
Proof.
  intros G Q S S' W R V P. unfold integrate_measure.
  rewrite (bind_ok _ _ _ _ _ _ G).
  rewrite (bind_ok _ _ _ _ _ _ (sendCommand_answered _ true _ _ _ Q)).
  unfold sleep.
  assert (SM : sleep_max = 9223372036) by reflexivity.
  destruct (Z.ltb_spec (T + 1) (- sleep_max)) as [L|_]; [lia|].
  destruct (Z.ltb_spec sleep_max (T + 1)) as [L|_]; [lia|]. cbn [orb].
  destruct (Z.ltb_spec (T + 1) 0) as [L|_]; [lia|].
  rewrite bind_emit.
  rewrite (bind_ok _ _ _ _ _ _ W).
  assert (Wr : serial_write "V" d3
               = mkOutcome (Ok tt) (write d3 "V") [EvWrite "V"]) by reflexivity.
  rewrite (bind_ok _ _ _ _ _ _ Wr).
  assert (Rd : serial_read_raw (write d3 "V")
               = mkOutcome (Ok raw) d4 [EvReadRaw (Some raw)]).
  { unfold serial_read_raw. now rewrite R. }
  rewrite (bind_ok _ _ _ _ _ _ Rd).
  cbv zeta. rewrite V. cbn [nth_error].
  rewrite (bind_try_some _ _ _ _ _ eq_refl).
  rewrite (bind_try_some _ _ _ _ _ P).
  destruct (n =? T); cbn [negb].
  - rewrite bind_ret_l, (bind_try_some _ _ _ _ _ eq_refl).
    destruct (float second); reflexivity.
  - unfold print. rewrite bind_emit, (bind_try_some _ _ _ _ _ eq_refl).
    destruct (float second); reflexivity.
Qed.

Lemma integrate_returns_second_field_witness :
  integrate_measure (Dev:=Replay.t) Z Py.int 1
    ["00"; "E"; "E"; "10"; "00"; "I"; "INT"; "RES"; "9s 15 C"]
  = mkOutcome (Ok 15) []
      ([EvQuery "?W" (Some "00"); EvQuery "E" (Some "E"); EvQuery "E" (Some "E");
        EvQuery "V" (Some "10"); EvQuery "?W" (Some "00")]
         ++ exchange "I" true "I"
         ++ EvSleep (10 + 1)
         :: [EvQuery "?S" (Some "INT"); EvSleep 1; EvQuery "?S" (Some "RES")]
         ++ EvWrite "V"
         :: EvReadRaw (Some "9s 15 C")
         :: (if 9 =? 10 then [] else [EvPrint "Integration time missmatch"])).
Proof.
  apply (integrate_returns_second_field (Dev:=Replay.t) Z Py.int 1 10 9
           ["00"; "E"; "E"; "10"; "00"; "I"; "INT"; "RES"; "9s 15 C"]
           ["I"; "INT"; "RES"; "9s 15 C"]
           ["INT"; "RES"; "9s 15 C"]
           ["9s 15 C"] []
           _ _ "I" "9s 15 C" "9s" "15" []).
  - reflexivity.
  - reflexivity.
  - lia.
  - lia.
  - reflexivity.
  - reflexivity.
  - reflexivity.
  - reflexivity.
Defined.

(** ** The measurement-unit flag *)

Lemma item_last_three (u : string) (a b c : ascii) :
  Py.item_last (u ++ String a (String b (String c "")))%string 3
  = Some (String a "").
Proof.
  unfold Py.item_last, Py.item. rewrite str_length_app. simpl String.length.
  replace (3 <=? String.length u + 3)%nat with true
    by (symmetry; apply Nat.leb_le; lia).
  replace (String.length u + 3 - 3)%nat with (0 + String.length u)%nat by lia.
  rewrite <- append_correct2. reflexivity.
Qed.

Lemma format_08b_third_last (n : Z) (u : string) (a b c : ascii) :
  Py.bin_abs n = (u ++ String a (String b (String c "")))%string ->
  Py.item_last (Py.format_08b n) 3 = Some (String a "").
Proof.
  intros E. unfold Py.format_08b, Py.pad_left. rewrite E.
  destruct (n <? 0).
  - change (String "-" ?x) with ("-" ++ x)%string.
    rewrite <- !str_app_assoc. apply item_last_three.
  - rewrite <- str_app_assoc. apply item_last_three.
Qed.

(** The character that [setElectricalUnits] looks at, [getFlags()[-3]], is
    the bit of weight four of the magnitude of the number, however long its
    binary writing is. *)
Lemma format_08b_unit_flag (n : Z) :
  Py.item_last (Py.format_08b n) 3
  = Some (if Z.testbit (Z.abs n) 2 then "1" else "0").
Proof.
  assert (P : forall p,
             Py.item_last (Py.format_08b (Zpos p)) 3
             = Some (if Z.testbit (Zpos p) 2 then "1" else "0") /\
             Py.item_last (Py.format_08b (Zneg p)) 3
             = Some (if Z.testbit (Zpos p) 2 then "1" else "0")).
  { intros p.
    destruct p as [[[q|q|]|[q|q|]|]|[[q|q|]|[q|q|]|]|];
      try (split; reflexivity);
      split;
      match goal with
      | |- Py.item_last (Py.format_08b ?z) 3 = _ =>
          rewrite (format_08b_third_last z (Py.bin_pos q) _ _ _)
            by (cbn [Py.bin_abs Py.bin_pos]; rewrite !str_app_assoc; reflexivity)
      end; reflexivity. }
  destruct n as [|p|p]; [reflexivity|apply P|apply P].
Qed.

Lemma ends_with_app {A} (l1 l2 : list A) (x : A) :
  (exists t, l2 = t ++ [x]) -> exists t, l1 ++ l2 = t ++ [x].
Proof. intros [t ->]. exists (l1 ++ t). now rewrite app_assoc. Qed.

Section Units.

Context {Dev : Type} `{Serial Dev}.

Lemma sent_getFlags d : sent (trace (getFlags d)) = ["?F"].
Proof.
  unfold getFlags. rewrite sent_bind, sent_sendCommand.
  destruct (res (_sendCommand "?F" false d)) as [r| |]; try reflexivity.
  rewrite sent_bind, sent_try_.
  destruct (res (try_ ValueError (Py.int r) _)); reflexivity.
Qed.

Lemma setElectricalUnits_answered fuel d s d1 n :
  query d "?F" = (Some s, d1) ->
  Py.int s = Some n ->
  setElectricalUnits fuel d
  = bind (fun d0 => mkOutcome (Ok tt) d0 [EvQuery "?F" (Some s)])
      (fun _ =>
         if Z.testbit (Z.abs n) 2 then
           bind (goToSetupPosition fuel) (fun _ =>
           bind (_sendCommand "E" true) (fun _ =>
           bind (_sendCommand "D" true) (fun _ =>
           bind (_sendCommand "E" true) (fun _ =>
           bind (_sendCommand "U" true) (fun _ =>
           bind (_sendCommand "E" true) (fun _ =>
           bind getFlags (fun flags' =>
           bind (try_ IndexError (Py.item_last flags' 3)) (fun unit_flag' =>
           bind (if (unit_flag' =? "1")%string
                 then print "Electrical units not set correctly"
                 else ret tt) (fun _ =>
           goToSetupPosition fuel)))))))))
         else ret tt) d1.
Proof.
  intros Q P. unfold setElectricalUnits.
  rewrite (bind_ok _ _ _ _ _ _ (getFlags_answered _ _ _ _ Q P)).
  rewrite (bind_try_some _ _ _ _ _ (format_08b_unit_flag n)).
  destruct (Z.testbit (Z.abs n) 2); reflexivity.
Qed.

End Units.

(** X10.  [setElectricalUnits] acts on one bit only: when the reply to "?F"
    reads as a number whose magnitude has the bit of weight four clear, the
    flags query is the only exchange and the method returns. *)
Theorem setElectricalUnits_idle_when_flag_clear
  {Dev : Type} `{Serial Dev} (fuel : nat) (d d' : Dev) (s : string) (n : Z) :
  query d "?F" = (Some s, d') ->
  Py.int s = Some n ->
  Z.testbit (Z.abs n) 2 = false ->
  setElectricalUnits fuel d = mkOutcome (Ok tt) d' [EvQuery "?F" (Some s)].
Proof.
  intros Q P B. rewrite (setElectricalUnits_answered fuel d s d' n Q P), B.
  reflexivity.
Qed.

Lemma setElectricalUnits_idle_when_flag_clear_witness :
  query (Dev:=Replay.t) ["259"; "left"] "?F" = (Some "259", ["left"]) /\
  Py.int "259" = Some 259 /\
  Z.testbit (Z.abs 259) 2 = false /\
  setElectricalUnits (Dev:=Replay.t) 3 ["259"; "left"]
  = mkOutcome (Ok tt) ["left"] [EvQuery "?F" (Some "259")].
Proof.
  split; [reflexivity|]. split; [reflexivity|]. split; [reflexivity|].
  exact (setElectricalUnits_idle_when_flag_clear (Dev:=Replay.t) 3
           ["259"; "left"] ["left"] "259" 259
           (replay_query _ _ _) eq_refl eq_refl).
Defined.

(** X11.  When that bit is set and [setElectricalUnits] returns, it has
    sent, after the flags query: the navigation to the setup position, then
    "E", "D", "E", "U", "E", the flags query again, and a second navigation;
    its last exchange is a position query answered "00". *)
Theorem setElectricalUnits_toggles_and_returns_to_root
  {Dev : Type} `{Serial Dev} (fuel : nat) (d d1 : Dev) (s : string) (n : Z) :
  query d "?F" = (Some s, d1) ->
  Py.int s = Some n ->
  Z.testbit (Z.abs n) 2 = true ->
  res (setElectricalUnits fuel d) = Ok tt ->
  exists d5 t,
    sent (trace (setElectricalUnits fuel d))
    = "?F" :: sent (trace (goToSetupPosition fuel d1))
        ++ ["E"; "D"; "E"; "U"; "E"; "?F"]
        ++ sent (trace (goToSetupPosition fuel d5)) /\
    trace (setElectricalUnits fuel d) = t ++ [EvQuery "?W" (Some "00")].
Proof.
  intros Q P B. rewrite (setElectricalUnits_answered fuel d s d1 n Q P), B.
  intros R.
  apply bind_ok_inv in R. destruct R as [[] [_ [R ->]]]. cbn [dev trace] in *.
  apply bind_ok_inv in R. destruct R as [[] [_ [R ->]]].
  apply bind_ok_inv in R. destruct R as [? [_ [R ->]]].
  apply bind_ok_inv in R. destruct R as [? [_ [R ->]]].
  apply bind_ok_inv in R. destruct R as [? [_ [R ->]]].
  apply bind_ok_inv in R. destruct R as [? [_ [R ->]]].
  apply bind_ok_inv in R. destruct R as [? [_ [R ->]]].
  apply bind_ok_inv in R. destruct R as [flags' [_ [R ->]]].
  apply bind_ok_inv in R. destruct R as [flag' [_ [R ->]]].
  apply bind_ok_inv in R. destruct R as [[] [_ [R ->]]].
  eexists.
  match goal with
  | |- exists t0, ?A /\ ?L = t0 ++ ?X =>
      assert (Z : exists t0, L = t0 ++ X);
        [|destruct Z as [t0 Z]; exists t0; split; [|exact Z]]
  end.
  - apply (ends_with_app [EvQuery "?F" (Some s)]).
    do 9 apply ends_with_app.
    exact (goToSetupPosition_exit _ _ R).
  - cbn [app sent]. rewrite !sent_app, !sent_sendCommand, sent_getFlags, sent_try_.
    f_equal. f_equal. cbn [app]. do 6 f_equal.
    match goal with
    | |- sent (trace ((if ?b then _ else _) _)) ++ _ = _ =>
        destruct b; reflexivity
    end.
Qed.

Lemma setElectricalUnits_toggles_and_returns_to_root_witness :
  res (setElectricalUnits (Dev:=Replay.t) 1
         ["4"; "00"; "E"; "D"; "E"; "U"; "E"; "0"; "00"]) = Ok tt /\
  exists d5 t,
    sent (trace (setElectricalUnits (Dev:=Replay.t) 1
                   ["4"; "00"; "E"; "D"; "E"; "U"; "E"; "0"; "00"]))
    = "?F" :: sent (trace (goToSetupPosition (Dev:=Replay.t) 1
                             ["00"; "E"; "D"; "E"; "U"; "E"; "0"; "00"]))
        ++ ["E"; "D"; "E"; "U"; "E"; "?F"]
        ++ sent (trace (goToSetupPosition (Dev:=Replay.t) 1 d5)) /\
    trace (setElectricalUnits (Dev:=Replay.t) 1
             ["4"; "00"; "E"; "D"; "E"; "U"; "E"; "0"; "00"])
    = t ++ [EvQuery "?W" (Some "00")].
Proof.
  split; [reflexivity|].
  exact (setElectricalUnits_toggles_and_returns_to_root (Dev:=Replay.t) 1
           ["4"; "00"; "E"; "D"; "E"; "U"; "E"; "0"; "00"]
           ["00"; "E"; "D"; "E"; "U"; "E"; "0"; "00"] "4" 4
           (replay_query _ _ _) eq_refl eq_refl eq_refl).
Defined.

(** ** Opening the session *)

Section Opening.

Context {Dev : Type} `{Serial Dev}.

(** The result and log of a method that ends with [setElectricalUnits]. *)
Lemma then_setElectricalUnits {A} (a : A) fuel d :
  bind (setElectricalUnits fuel) (fun _ => ret a) d
  = mkOutcome
      (match res (setElectricalUnits fuel d) with
       | Ok _ => Ok a
       | Raise e => Raise e
       | OutOfFuel => OutOfFuel
       end)
      (dev (setElectricalUnits fuel d))
      (trace (setElectricalUnits fuel d)).
Proof.
  unfold bind. destruct (setElectricalUnits fuel d) as [[[]|e|] d1 t1]; simpl;
    rewrite ?app_nil_r; reflexivity.
Qed.

Lemma first_field_exists r : exists family,
  nth_error (Py.split_on " " r) 0 = Some family.
Proof.
  destruct (Py.split_on " " r) as [|family fields] eqn:E.
  - exfalso. exact (split_on_from_not_nil _ _ _ E).
  - exists family. reflexivity.
Qed.

End Opening.

(** X12.  An instrument whose reply to "PTW" does not start with the field
    "UNIDOS" does not stop [__init__]: it prints "This is not an UNIDOS
    electrometer", sends neither a second "PTW" nor "SER", leaves the
    attributes unset and goes on with [setElectricalUnits], whose outcome is
    that of [__init__]. *)
Theorem init_goes_on_with_unrecognised_instrument
  {Dev : Type} `{Serial Dev} (fuel : nat) (d d1 : Dev) (r : string) :
  query d "PTW" = (Some r, d1) ->
  nth_error (Py.split_on " " r) 0 <> Some "UNIDOS" ->
  __init__ fuel d
  = mkOutcome
      (match res (setElectricalUnits fuel d1) with
       | Ok _ => Ok None
       | Raise e => Raise e
       | OutOfFuel => OutOfFuel
       end)
      (dev (setElectricalUnits fuel d1))
      (EvQuery "PTW" (Some r)
         :: EvPrint "This is not an UNIDOS electrometer"
         :: trace (setElectricalUnits fuel d1)).
Proof.
  intros Q N. unfold __init__.
  rewrite (bind_ok _ _ _ _ _ _ (sendCommand_answered _ false _ _ _ Q)).
  rewrite exchange_unchecked.
  destruct (first_field_exists r) as [family F]. rewrite F in N.
  rewrite (bind_try_some _ _ _ _ _ F).
  replace (family =? "UNIDOS")%string with false
    by (symmetry; apply String.eqb_neq; congruence).
  rewrite bind_assoc. unfold print. rewrite bind_emit, bind_ret_l.
  rewrite then_setElectricalUnits. reflexivity.
Qed.

Lemma init_goes_on_with_unrecognised_instrument_witness :
  query (Dev:=Replay.t) ["TANDEM 2"; "0"] "PTW" = (Some "TANDEM 2", ["0"]) /\
  nth_error (Py.split_on " " "TANDEM 2") 0 <> Some "UNIDOS" /\
  __init__ (Dev:=Replay.t) 1 ["TANDEM 2"; "0"]
  = mkOutcome
      (match res (setElectricalUnits (Dev:=Replay.t) 1 ["0"]) with
       | Ok _ => Ok None
       | Raise e => Raise e
       | OutOfFuel => OutOfFuel
       end)
      (dev (setElectricalUnits (Dev:=Replay.t) 1 ["0"]))
      (EvQuery "PTW" (Some "TANDEM 2")
         :: EvPrint "This is not an UNIDOS electrometer"
         :: trace (setElectricalUnits (Dev:=Replay.t) 1 ["0"])).
Proof.
  assert (N : nth_error (Py.split_on " " "TANDEM 2") 0 <> Some "UNIDOS")
    by discriminate.
  split; [reflexivity|]. split; [exact N|].
  exact (init_goes_on_with_unrecognised_instrument (Dev:=Replay.t) 1
           ["TANDEM 2"; "0"] ["0"] "TANDEM 2" (replay_query _ _ _) N).
Defined.

(** X13.  For an instrument that identifies itself as "UNIDOS", [__init__]
    asks "PTW" a second time and takes the version from that second reply,
    its second field; the serial number is the whole reply to "SER".  Both
    are printed, and [setElectricalUnits] follows. *)
Theorem init_reads_version_from_second_reply
  {Dev : Type} `{Serial Dev} (fuel : nat) (d d1 d2 d3 : Dev)
  (r r' version serNo : string) :
  query d "PTW" = (Some r, d1) ->
  nth_error (Py.split_on " " r) 0 = Some "UNIDOS" ->
  query d1 "PTW" = (Some r', d2) ->
  nth_error (Py.split_on " " r') 1 = Some version ->
  query d2 "SER" = (Some serNo, d3) ->
  __init__ fuel d
  = mkOutcome
      (match res (setElectricalUnits fuel d3) with
       | Ok _ => Ok (Some (version, serNo))
       | Raise e => Raise e
       | OutOfFuel => OutOfFuel
       end)
      (dev (setElectricalUnits fuel d3))
      (EvQuery "PTW" (Some r)
         :: EvQuery "PTW" (Some r')
         :: EvQuery "SER" (Some serNo)
         :: EvPrint ("PTW " ++ version ++ " electrometer. Serial number: "
                       ++ serNo)%string
         :: trace (setElectricalUnits fuel d3)).
Proof.
  intros Q F Q' V QS. unfold __init__.
  rewrite (bind_ok _ _ _ _ _ _ (sendCommand_answered _ false _ _ _ Q)).
  rewrite exchange_unchecked.
  rewrite (bind_try_some _ _ _ _ _ F).
  change ("UNIDOS" =? "UNIDOS")%string with true. cbv iota.
  rewrite bind_assoc.
  rewrite (bind_ok _ _ _ _ _ _ (sendCommand_answered _ false _ _ _ Q')).
  rewrite exchange_unchecked.
  rewrite bind_assoc, (bind_try_some _ _ _ _ _ V).
  rewrite bind_assoc.
  rewrite (bind_ok _ _ _ _ _ _ (sendCommand_answered _ false _ _ _ QS)).
  rewrite exchange_unchecked.
  rewrite bind_assoc. unfold print. rewrite bind_emit, bind_ret_l.
  rewrite then_setElectricalUnits. reflexivity.
Qed.

Lemma init_reads_version_from_second_reply_witness :
  __init__ (Dev:=Replay.t) 1 ["UNIDOS 1.0"; "UNIDOS 2.31"; "T10005"; "0"]
  = mkOutcome
      (match res (setElectricalUnits (Dev:=Replay.t) 1 ["0"]) with
       | Ok _ => Ok (Some ("2.31", "T10005"))
       | Raise e => Raise e
       | OutOfFuel => OutOfFuel
       end)
      (dev (setElectricalUnits (Dev:=Replay.t) 1 ["0"]))
      (EvQuery "PTW" (Some "UNIDOS 1.0")
         :: EvQuery "PTW" (Some "UNIDOS 2.31")
         :: EvQuery "SER" (Some "T10005")
         :: EvPrint ("PTW " ++ "2.31" ++ " electrometer. Serial number: "
                       ++ "T10005")%string
         :: trace (setElectricalUnits (Dev:=Replay.t) 1 ["0"])).
Proof.
  apply (init_reads_version_from_second_reply (Dev:=Replay.t) 1
           ["UNIDOS 1.0"; "UNIDOS 2.31"; "T10005"; "0"]
           ["UNIDOS 2.31"; "T10005"; "0"] ["T10005"; "0"] ["0"]
           "UNIDOS 1.0" "UNIDOS 2.31" "2.31" "T10005").
  - apply replay_query.
  - reflexivity.
  - apply replay_query.
  - reflexivity.
  - apply replay_query.
Defined.

(** X14.  When the second reply to "PTW" contains no space, there is no
    version field: [__init__] raises [IndexError] after the two "PTW"
    exchanges, before "SER" and before [setElectricalUnits]. *)
Theorem init_raises_without_version_field
  {Dev : Type} `{Serial Dev} (fuel : nat) (d d1 d2 : Dev) (r r' : string) :
  query d "PTW" = (Some r, d1) ->
  nth_error (Py.split_on " " r) 0 = Some "UNIDOS" ->
  query d1 "PTW" = (Some r', d2) ->
  spaces r' = O ->
  __init__ fuel d
  = mkOutcome (Raise IndexError) d2
      [EvQuery "PTW" (Some r); EvQuery "PTW" (Some r')].
Proof.
  intros Q F Q' S. unfold __init__.
  rewrite (bind_ok _ _ _ _ _ _ (sendCommand_answered _ false _ _ _ Q)).
  rewrite exchange_unchecked.
  rewrite (bind_try_some _ _ _ _ _ F).
  change ("UNIDOS" =? "UNIDOS")%string with true. cbv iota.
  rewrite bind_assoc.
  rewrite (bind_ok _ _ _ _ _ _ (sendCommand_answered _ false _ _ _ Q')).
  rewrite exchange_unchecked.
  assert (N : nth_error (Py.split_on " " r') 1 = None).
  { apply nth_error_None. unfold Py.split_on.
    rewrite length_split_on_from, S. lia. }
  rewrite N. reflexivity.
Qed.

Lemma init_raises_without_version_field_witness :
  __init__ (Dev:=Replay.t) 1 ["UNIDOS 2.31"; "UNIDOS"; "T10005"; "0"]
  = mkOutcome (Raise IndexError) ["T10005"; "0"]
      [EvQuery "PTW" (Some "UNIDOS 2.31"); EvQuery "PTW" (Some "UNIDOS")].
Proof.
  apply (init_raises_without_version_field (Dev:=Replay.t) 1
           ["UNIDOS 2.31"; "UNIDOS"; "T10005"; "0"]
           ["UNIDOS"; "T10005"; "0"] ["T10005"; "0"] "UNIDOS 2.31" "UNIDOS").
  - apply replay_query.
  - reflexivity.
  - apply replay_query.
  - reflexivity.
Defined.

(** ** Reading a value with and without the way back *)

Section WayBack.

Context {Dev : Type} `{Serial Dev}.

(** A reading is a sequence of exchanges [fetch] that yields the reply, the
    optional navigation [back], and a conversion [parse] of the reply that
    touches neither the instrument nor the log.  With the navigation, the
    value is the same and the log is longer by the log of the navigation. *)
Lemma way_back_only_appends {A} (fetch : M Dev string) (back : M Dev unit)
  (parse : string -> M Dev A) d v d1 t1 :
  (forall reply, exists x, forall d0, parse reply d0 = mkOutcome x d0 []) ->
  bind fetch (fun reply => bind (ret tt) (fun _ => parse reply)) d
  = mkOutcome (Ok v) d1 t1 ->
  bind fetch (fun reply => bind back (fun _ => parse reply)) d
  = mkOutcome
      (match res (back d1) with
       | Ok _ => Ok v
       | Raise e' => Raise e'
       | OutOfFuel => OutOfFuel
       end)
      (dev (back d1)) (t1 ++ trace (back d1)).
Proof.
  intros Pure E. apply bind_returns_inv in E.
  destruct E as [reply [d' [t' [t2 [F [K T]]]]]].
  rewrite bind_ret_l in K.
  destruct (Pure reply) as [x P]. rewrite P in K.
  injection K as Kx Kd Kt. subst x d' t2 t1.
  rewrite (bind_ok _ _ _ _ _ _ F). rewrite app_nil_r.
  unfold bind. destruct (back d1) as [[[]|e'|] d2 t2]; simpl;
    rewrite ?P; simpl; rewrite ?app_nil_r; reflexivity.
Qed.

Lemma getVoltage_shape fuel (goToSetup : bool) d :
  getVoltage fuel goToSetup d
  = bind
      (bind (goToSetupPosition fuel) (fun _ =>
       bind (_sendCommand "D" true) (fun _ =>
       bind (_sendCommand "E" true) (fun _ =>
       bind (_sendCommand "D" true) (fun _ =>
       bind (_sendCommand "E" true) (fun _ =>
       _sendCommand "V" false))))))
      (fun aValue =>
         bind (if goToSetup then goToSetupPosition fuel else ret tt)
           (fun _ =>
              bind (try_ IndexError (nth_error (Py.split_ws aValue) 0))
                (fun token => try_ ValueError (Py.int token)))) d.
Proof.
  unfold getVoltage.
  rewrite bind_assoc. apply bind_ext. intros ? ?.
  rewrite bind_assoc. apply bind_ext. intros ? ?.
  rewrite bind_assoc. apply bind_ext. intros ? ?.
  rewrite bind_assoc. apply bind_ext. intros ? ?.
  rewrite bind_assoc. apply bind_ext. intros ? ?.
  reflexivity.
Qed.

Lemma getIntegrationTime_shape fuel (goToSetup : bool) d :
  getIntegrationTime fuel goToSetup d
  = bind
      (bind (goToSetupPosition fuel) (fun _ =>
       bind (_sendCommand "E" true) (fun _ =>
       bind (_sendCommand "E" true) (fun _ =>
       _sendCommand "V" false))))
      (fun aValue =>
         bind (if goToSetup then goToSetupPosition fuel else ret tt)
           (fun _ => try_ ValueError (Py.int aValue))) d.
Proof.
  unfold getIntegrationTime.
  rewrite bind_assoc. apply bind_ext. intros ? ?.
  rewrite bind_assoc. apply bind_ext. intros ? ?.
  rewrite bind_assoc. apply bind_ext. intros ? ?.
  reflexivity.
Qed.

End WayBack.

(** X15.  The flag of [getVoltage] only adds the way back: when
    [getVoltage(False)] returns the value [v], [getVoltage(True)] makes the
    same exchanges, then runs [goToSetupPosition], and returns [v] if that
    navigation returns. *)
Theorem getVoltage_flag_only_appends_navigation
  {Dev : Type} `{Serial Dev} (fuel : nat) (d d1 : Dev) (v : Z)
  (t1 : list event) :
  getVoltage fuel false d = mkOutcome (Ok v) d1 t1 ->
  getVoltage fuel true d
  = mkOutcome
      (match res (goToSetupPosition fuel d1) with
       | Ok _ => Ok v
       | Raise e => Raise e
       | OutOfFuel => OutOfFuel
       end)
      (dev (goToSetupPosition fuel d1))
      (t1 ++ trace (goToSetupPosition fuel d1)).
Proof.
  rewrite !getVoltage_shape. apply way_back_only_appends.
  intros reply.
  destruct (nth_error (Py.split_ws reply) 0) as [token|];
    [|eexists; intros d0; reflexivity].
  destruct (Py.int token) eqn:P; eexists; intros d0;
    rewrite (bind_try_some _ _ _ _ _ eq_refl), P; reflexivity.
Qed.

Lemma getVoltage_flag_only_appends_navigation_witness :
  getVoltage (Dev:=Replay.t) 1 false
    ["00"; "D"; "E"; "D"; "E"; "100 V"; "011"; "C"; "01"; "U"; "00"]
  = mkOutcome (Ok 100) ["011"; "C"; "01"; "U"; "00"]
      [EvQuery "?W" (Some "00"); EvQuery "D" (Some "D"); EvQuery "E" (Some "E");
       EvQuery "D" (Some "D"); EvQuery "E" (Some "E");
       EvQuery "V" (Some "100 V")] /\
  getVoltage (Dev:=Replay.t) 3 true
    ["00"; "D"; "E"; "D"; "E"; "100 V"; "011"; "C"; "01"; "U"; "00"]
  = mkOutcome
      (match res (goToSetupPosition (Dev:=Replay.t) 3
                    ["011"; "C"; "01"; "U"; "00"]) with
       | Ok _ => Ok 100
       | Raise e => Raise e
       | OutOfFuel => OutOfFuel
       end)
      (dev (goToSetupPosition (Dev:=Replay.t) 3 ["011"; "C"; "01"; "U"; "00"]))
      ([EvQuery "?W" (Some "00"); EvQuery "D" (Some "D"); EvQuery "E" (Some "E");
        EvQuery "D" (Some "D"); EvQuery "E" (Some "E");
        EvQuery "V" (Some "100 V")]
         ++ trace (goToSetupPosition (Dev:=Replay.t) 3
                     ["011"; "C"; "01"; "U"; "00"])).
Proof.
  split; [reflexivity|].
  exact (getVoltage_flag_only_appends_navigation (Dev:=Replay.t) 3
           ["00"; "D"; "E"; "D"; "E"; "100 V"; "011"; "C"; "01"; "U"; "00"]
           ["011"; "C"; "01"; "U"; "00"] 100 _ eq_refl).
Defined.

(** X16.  The same for [getIntegrationTime]: with the flag it returns the
    value it returns without, after the navigation to the setup position
    has been appended. *)
Theorem getIntegrationTime_flag_only_appends_navigation
  {Dev : Type} `{Serial Dev} (fuel : nat) (d d1 : Dev) (v : Z)
  (t1 : list event) :
  getIntegrationTime fuel false d = mkOutcome (Ok v) d1 t1 ->
  getIntegrationTime fuel true d
  = mkOutcome
      (match res (goToSetupPosition fuel d1) with
       | Ok _ => Ok v
       | Raise e => Raise e
       | OutOfFuel => OutOfFuel
       end)
      (dev (goToSetupPosition fuel d1))
      (t1 ++ trace (goToSetupPosition fuel d1)).
Proof.
  rewrite !getIntegrationTime_shape. apply way_back_only_appends.
  intros reply. destruct (Py.int reply); eexists; intros d0; reflexivity.
Qed.

Lemma getIntegrationTime_flag_only_appends_navigation_witness :
  getIntegrationTime (Dev:=Replay.t) 3 false
    ["00"; "E"; "E"; "0030"; "000"; "C"; "00"]
  = mkOutcome (Ok 30) ["000"; "C"; "00"]
      [EvQuery "?W" (Some "00"); EvQuery "E" (Some "E"); EvQuery "E" (Some "E");
       EvQuery "V" (Some "0030")] /\
  getIntegrationTime (Dev:=Replay.t) 3 true
    ["00"; "E"; "E"; "0030"; "000"; "C"; "00"]
  = mkOutcome
      (match res (goToSetupPosition (Dev:=Replay.t) 3 ["000"; "C"; "00"]) with
       | Ok _ => Ok 30
       | Raise e => Raise e
       | OutOfFuel => OutOfFuel
       end)
      (dev (goToSetupPosition (Dev:=Replay.t) 3 ["000"; "C"; "00"]))
      ([EvQuery "?W" (Some "00"); EvQuery "E" (Some "E"); EvQuery "E" (Some "E");
        EvQuery "V" (Some "0030")]
         ++ trace (goToSetupPosition (Dev:=Replay.t) 3 ["000"; "C"; "00"])).
Proof.
  split; [reflexivity|].
  exact (getIntegrationTime_flag_only_appends_navigation (Dev:=Replay.t) 3
           ["00"; "E"; "E"; "0030"; "000"; "C"; "00"]
           ["000"; "C"; "00"] 30 _ eq_refl).
Defined.

(** ** The echo check *)

(** X17.  The echo check of [_sendCommand] is never fatal: an answered
    exchange returns the reply unchanged, and the console gets the line
    "Error sending command: ..." exactly when the check is asked for and
    the reply is not the command.  The direct queries [getPosition],
    [getStatus], [getUnit] and [getCorrections] ask for no check, so they
    print nothing whatever the reply. *)
Theorem echo_check_only_prints
  {Dev : Type} `{Serial Dev} (d d' : Dev) (command r : string)
  (crossCheck : bool) :
  query d command = (Some r, d') ->
  res (_sendCommand command crossCheck d) = Ok r /\
  dev (_sendCommand command crossCheck d) = d' /\
  sent (trace (_sendCommand command crossCheck d)) = [command] /\
  console (trace (_sendCommand command crossCheck d))
  = (if crossCheck && negb (r =? command)%string
     then [("Error sending command: " ++ command)%string] else []) /\
  (command = "?W" -> getPosition d = mkOutcome (Ok r) d' [EvQuery "?W" (Some r)]) /\
  (command = "?S" -> getStatus d = mkOutcome (Ok r) d' [EvQuery "?S" (Some r)]) /\
  (command = "?U" -> getUnit d = mkOutcome (Ok r) d' [EvQuery "?U" (Some r)]) /\
  (command = "?C" ->
   getCorrections d = mkOutcome (Ok r) d' [EvQuery "?C" (Some r)]).
Proof.
  intros Q.
  rewrite (sendCommand_answered _ crossCheck _ _ _ Q). cbn [res dev trace].
  split; [reflexivity|]. split; [reflexivity|].
  split; [apply sent_exchange|]. split.
  - unfold exchange. rewrite (andb_comm crossCheck).
    destruct (negb (r =? command)%string && crossCheck); reflexivity.
  - repeat split; intros ->;
      [unfold getPosition|unfold getStatus|unfold getUnit|unfold getCorrections];
      rewrite (sendCommand_answered _ false _ _ _ Q);
      now rewrite exchange_unchecked.
Qed.

Lemma echo_check_only_prints_witness :
  query (Dev:=Replay.t) ["busy"] "E" = (Some "busy", []) /\
  res (_sendCommand (Dev:=Replay.t) "E" true ["busy"]) = Ok "busy" /\
  dev (_sendCommand (Dev:=Replay.t) "E" true ["busy"]) = [] /\
  sent (trace (_sendCommand (Dev:=Replay.t) "E" true ["busy"])) = ["E"] /\
  console (trace (_sendCommand (Dev:=Replay.t) "E" true ["busy"]))
  = ["Error sending command: E"].
Proof.
  split; [reflexivity|].
  destruct (echo_check_only_prints (Dev:=Replay.t) ["busy"] [] "E" "busy" true
              (replay_query _ _ _)) as [R [D [S [C _]]]].
  split; [exact R|]. split; [exact D|]. split; [exact S|exact C].
Defined.

(** ** Writing the integration time *)

Lemma zfill_four_digits (t : Z) :
  6 <= t <= 9999 ->
  String.length (Py.zfill 4 (Py.str t)) = 4%nat /\
  Py.int (Py.zfill 4 (Py.str t)) = Some t.
Proof.
  intros R.
  assert (A : forallb
                (fun k =>
                   let t := Z.of_nat k in
                   (String.length (Py.zfill 4 (Py.str t)) =? 4)%nat
                   && match Py.int (Py.zfill 4 (Py.str t)) with
                      | Some n => n =? t
                      | None => false
                      end)
                (seq 6 (Z.to_nat 9994)) = true)
    by (vm_compute; reflexivity).
  rewrite forallb_forall in A.
  specialize (A (Z.to_nat t)). cbv zeta in A.
  rewrite Z2Nat.id in A by lia.
  assert (I : In (Z.to_nat t) (seq 6 (Z.to_nat 9994))) by (apply in_seq; lia).
  apply A in I. apply andb_prop in I. destruct I as [L P].
  split; [now apply Nat.eqb_eq|].
  destruct (Py.int (Py.zfill 4 (Py.str t))) as [n|]; [|discriminate P].
  apply Z.eqb_eq in P. now subst.
Qed.

(** X18.  What [setIntegrationTime] writes reads back as the value: when it
    returns, the command it sent between the two "E" of the way in and the
    confirming "E" is a string of exactly four characters that [int] reads
    as the integration time asked for. *)
Theorem setIntegrationTime_sends_four_digits
  {Dev : Type} `{Serial Dev} (fuel : nat) (t : Z) (d : Dev) :
  res (setIntegrationTime fuel (PyInt t) d) = Ok tt ->
  exists literal,
    sent (trace (setIntegrationTime fuel (PyInt t) d))
    = sent (trace (goToSetupPosition fuel d))
        ++ ["E"; "E"; literal; "E"; "V"] /\
    String.length literal = 4%nat /\
    Py.int literal = Some t.
Proof.
  intros R. exists (Py.zfill 4 (Py.str t)).
  split; [now apply setIntegrationTime_commands|].
  apply zfill_four_digits.
  unfold setIntegrationTime in R.
  destruct ((6 <=? t) && (t <=? 9999)) eqn:A; [|discriminate R].
  apply andb_prop in A. destruct A as [A1 A2].
  apply Z.leb_le in A1, A2. lia.
Qed.

Lemma setIntegrationTime_sends_four_digits_witness :
  res (setIntegrationTime 1 (PyInt 30) Sim.root) = Ok tt /\
  exists literal,
    sent (trace (setIntegrationTime 1 (PyInt 30) Sim.root))
    = sent (trace (goToSetupPosition 1 Sim.root))
        ++ ["E"; "E"; literal; "E"; "V"] /\
    String.length literal = 4%nat /\
    Py.int literal = Some 30.
Proof.
  split; [reflexivity|].
  exact (setIntegrationTime_sends_four_digits (Dev:=Sim.t) 1 30 Sim.root eq_refl).
Defined.

(** X19.  A failed read-back does not make [setIntegrationTime] fail.
    Against an instrument that answers, once the navigation has returned,
    the value is written and read back; when the reply reads as an integer
    the method returns, having printed "Error setting the integration time,
    operation aborted." exactly when that integer is not the value; only a
    reply that is no integer raises [ValueError]. *)
Theorem setIntegrationTime_mismatch_only_prints
  {Dev : Type} `{Serial Dev} (fuel : nat) (t : Z) (d d1 : Dev)
  (t1 : list event) :
  responsive Dev ->
  6 <= t <= 9999 ->
  goToSetupPosition fuel d = mkOutcome (Ok tt) d1 t1 ->
  exists steps r d',
    sent steps = ["E"; "E"; Py.zfill 4 (Py.str t); "E"] /\
    setIntegrationTime fuel (PyInt t) d
    = mkOutcome
        (match Py.int r with
         | Some _ => Ok tt
         | None => Raise ValueError
         end)
        d'
        (t1 ++ steps
            ++ EvQuery "V" (Some r)
            :: match Py.int r with
               | Some n =>
                   if t =? n then []
                   else [EvPrint "Error setting the integration time, operation aborted."]
               | None => []
               end).
Proof.
  intros R V G. unfold setIntegrationTime.
  replace ((6 <=? t) && (t <=? 9999)) with true
    by (symmetry; apply andb_true_intro; split; apply Z.leb_le; lia).
  unfold assert_. rewrite bind_ret_l.
  rewrite (bind_ok _ _ _ _ _ _ G).
  destruct (R d1 "E") as [a1 [d2 Q1]].
  rewrite (bind_ok _ _ _ _ _ _ (sendCommand_answered _ true _ _ _ Q1)).
  destruct (R d2 "E") as [a2 [d3 Q2]].
  rewrite (bind_ok _ _ _ _ _ _ (sendCommand_answered _ true _ _ _ Q2)).
  destruct (R d3 (Py.zfill 4 (Py.str t))) as [a3 [d4 Q3]].
  rewrite (bind_ok _ _ _ _ _ _ (sendCommand_answered _ true _ _ _ Q3)).
  destruct (R d4 "E") as [a4 [d5 Q4]].
  rewrite (bind_ok _ _ _ _ _ _ (sendCommand_answered _ true _ _ _ Q4)).
  destruct (R d5 "V") as [r [d6 Q5]].
  rewrite (bind_ok _ _ _ _ _ _ (sendCommand_answered _ false _ _ _ Q5)).
  rewrite exchange_unchecked.
  exists (exchange "E" true a1 ++ exchange "E" true a2
            ++ exchange (Py.zfill 4 (Py.str t)) true a3 ++ exchange "E" true a4),
    r, d6.
  split.
  - rewrite !sent_app, !sent_exchange. reflexivity.
  - cbn [res dev trace]. rewrite <- !app_assoc.
    destruct (Py.int r) as [n|]; [|reflexivity].
    rewrite (bind_try_some _ _ _ _ _ eq_refl).
    destruct (t =? n); reflexivity.
Qed.

Lemma setIntegrationTime_mismatch_only_prints_witness :
  responsive Replay.t /\
  6 <= 30 <= 9999 /\
  goToSetupPosition (Dev:=Replay.t) 1 ["00"; "E"; "E"; "0030"; "E"; "29"]
  = mkOutcome (Ok tt) ["E"; "E"; "0030"; "E"; "29"] [EvQuery "?W" (Some "00")] /\
  exists steps r d',
    sent steps = ["E"; "E"; Py.zfill 4 (Py.str 30); "E"] /\
    setIntegrationTime (Dev:=Replay.t) 1 (PyInt 30)
      ["00"; "E"; "E"; "0030"; "E"; "29"]
    = mkOutcome
        (match Py.int r with
         | Some _ => Ok tt
         | None => Raise ValueError
         end)
        d'
        ([EvQuery "?W" (Some "00")] ++ steps
            ++ EvQuery "V" (Some r)
            :: match Py.int r with
               | Some n =>
                   if 30 =? n then []
                   else [EvPrint "Error setting the integration time, operation aborted."]
               | None => []
               end).
Proof.
  assert (V : 6 <= 30 <= 9999) by lia.
  split; [exact replay_responsive|]. split; [exact V|].
  split; [reflexivity|].
  exact (setIntegrationTime_mismatch_only_prints (Dev:=Replay.t) 1 30
           ["00"; "E"; "E"; "0030"; "E"; "29"] ["E"; "E"; "0030"; "E"; "29"]
           [EvQuery "?W" (Some "00")] replay_responsive V eq_refl).
Defined.

(** ** Setting the voltage: the other ways out *)

Lemma index_from_not_In x xs : forall k,
  ~ In x xs -> Py.index_from k x xs = None.
Proof.
  induction xs as [|y ys IH]; intros k N; [reflexivity|].
  simpl. destruct (Z.eqb_spec x y) as [->|D].
  - exfalso. apply N. now left.
  - apply IH. intros I. apply N. now right.
Qed.

(** X20.  When the voltage that the instrument reports is not one of the
    list, [setVoltage] raises [ValueError] as soon as it has read it: no
    step is sent, and the cursor is left in the voltage field. *)
Theorem setVoltage_unlisted_present_voltage_raises
  {Dev : Type} `{Serial Dev} (fuel : nat) (voltage aVoltage : Z) (d d1 : Dev)
  (t1 : list event) :
  In voltage listOfVoltages ->
  getVoltage fuel false d = mkOutcome (Ok aVoltage) d1 t1 ->
  ~ In aVoltage listOfVoltages ->
  setVoltage fuel voltage d = mkOutcome (Raise ValueError) d1 t1.
Proof.
  intros I G N. unfold setVoltage.
  apply mem_In in I. rewrite I. unfold assert_. rewrite bind_ret_l.
  rewrite (bind_ok _ _ _ _ _ _ G).
  unfold Py.index. rewrite (index_from_not_In aVoltage listOfVoltages 0 N).
  cbn. now rewrite app_nil_r.
Qed.

Lemma setVoltage_unlisted_present_voltage_raises_witness :
  In 300 listOfVoltages /\
  getVoltage (Dev:=Replay.t) 1 false ["00"; "D"; "E"; "D"; "E"; "120 V"; "U"]
  = mkOutcome (Ok 120) ["U"]
      [EvQuery "?W" (Some "00"); EvQuery "D" (Some "D"); EvQuery "E" (Some "E");
       EvQuery "D" (Some "D"); EvQuery "E" (Some "E");
       EvQuery "V" (Some "120 V")] /\
  ~ In 120 listOfVoltages /\
  setVoltage (Dev:=Replay.t) 1 300 ["00"; "D"; "E"; "D"; "E"; "120 V"; "U"]
  = mkOutcome (Raise ValueError) ["U"]
      [EvQuery "?W" (Some "00"); EvQuery "D" (Some "D"); EvQuery "E" (Some "E");
       EvQuery "D" (Some "D"); EvQuery "E" (Some "E");
       EvQuery "V" (Some "120 V")].
Proof.
  assert (I : In 300 listOfVoltages) by (apply mem_In; reflexivity).
  assert (N : ~ In 120 listOfVoltages).
  { intros X. apply mem_In in X. discriminate X. }
  split; [exact I|]. split; [reflexivity|]. split; [exact N|].
  exact (setVoltage_unlisted_present_voltage_raises (Dev:=Replay.t) 1 300 120
           ["00"; "D"; "E"; "D"; "E"; "120 V"; "U"] ["U"] _ I eq_refl N).
Defined.

(** X21.  When the read-back gives the requested voltage, [setVoltage]
    prints nothing and confirms with "E"; it sends "G" after that exactly
    when the reply to "E" is not "E"; then it navigates to the setup
    position, and its result is that of the navigation. *)
Theorem setVoltage_match_confirms
  {Dev : Type} `{Serial Dev} (fuel : nat) (voltage aVoltage i1 i2 : Z)
  (d d1 d2 d3 d4 d5 : Dev) (t1 steps : list event) (r token a g : string) :
  In voltage listOfVoltages ->
  getVoltage fuel false d = mkOutcome (Ok aVoltage) d1 t1 ->
  Py.index aVoltage listOfVoltages = Some i1 ->
  Py.index voltage listOfVoltages = Some i2 ->
  setVoltage_step (i2 - i1) d1 = mkOutcome (Ok tt) d2 steps ->
  query d2 "V" = (Some r, d3) ->
  nth_error (Py.split_ws r) 0 = Some token ->
  Py.int token = Some voltage ->
  query d3 "E" = (Some a, d4) ->
  query d4 "G" = (Some g, d5) ->
  setVoltage fuel voltage d
  = mkOutcome
      (res (goToSetupPosition fuel (if (a =? "E")%string then d4 else d5)))
      (dev (goToSetupPosition fuel (if (a =? "E")%string then d4 else d5)))
      (t1 ++ steps
          ++ EvQuery "V" (Some r)
          :: EvQuery "E" (Some a)
          :: (if (a =? "E")%string then [] else [EvQuery "G" (Some g)])
          ++ trace (goToSetupPosition fuel
                      (if (a =? "E")%string then d4 else d5))).
Proof.
  intros I G E1 E2 S Q T P QE QG.
  rewrite (setVoltage_after_step fuel voltage d aVoltage d1 t1 i1 i2 d2 steps
             I G E1 E2 S).
  rewrite setVoltage_check_then.
  rewrite (bind_ok _ _ _ _ _ _ (sendCommand_answered _ false _ _ _ Q)).
  rewrite exchange_unchecked.
  rewrite (bind_try_some _ _ _ _ _ T), (bind_try_some _ _ _ _ _ P).
  rewrite Z.eqb_refl. cbn [negb]. rewrite bind_assoc.
  rewrite (bind_ok _ _ _ _ _ _ (sendCommand_answered _ false _ _ _ QE)).
  rewrite exchange_unchecked.
  destruct (a =? "E")%string; cbn [negb].
  - rewrite bind_ret_l. reflexivity.
  - rewrite bind_assoc.
    rewrite (bind_ok _ _ _ _ _ _ (sendCommand_answered _ false _ _ _ QG)).
    rewrite exchange_unchecked, bind_ret_l. reflexivity.
Qed.

Lemma setVoltage_match_confirms_witness :
  setVoltage (Dev:=Replay.t) 1 300
    ["00"; "D"; "E"; "D"; "E"; "100 V"; "U"; "U"; "U"; "U"; "300 V"; "STA";
     "G"; "00"]
  = mkOutcome
      (res (goToSetupPosition (Dev:=Replay.t) 1
              (if ("STA" =? "E")%string then ["G"; "00"] else ["00"])))
      (dev (goToSetupPosition (Dev:=Replay.t) 1
              (if ("STA" =? "E")%string then ["G"; "00"] else ["00"])))
      ([EvQuery "?W" (Some "00"); EvQuery "D" (Some "D"); EvQuery "E" (Some "E");
        EvQuery "D" (Some "D"); EvQuery "E" (Some "E");
        EvQuery "V" (Some "100 V")]
         ++ [EvQuery "U" (Some "U"); EvQuery "U" (Some "U");
             EvQuery "U" (Some "U"); EvQuery "U" (Some "U")]
         ++ EvQuery "V" (Some "300 V")
         :: EvQuery "E" (Some "STA")
         :: (if ("STA" =? "E")%string then [] else [EvQuery "G" (Some "G")])
         ++ trace (goToSetupPosition (Dev:=Replay.t) 1
                     (if ("STA" =? "E")%string then ["G"; "00"] else ["00"]))).
Proof.
  apply (setVoltage_match_confirms (Dev:=Replay.t) 1 300 100 2 6
           ["00"; "D"; "E"; "D"; "E"; "100 V"; "U"; "U"; "U"; "U"; "300 V";
            "STA"; "G"; "00"]
           ["U"; "U"; "U"; "U"; "300 V"; "STA"; "G"; "00"]
           ["300 V"; "STA"; "G"; "00"] ["STA"; "G"; "00"] ["G"; "00"] ["00"]
           _ _ "300 V" "300" "STA" "G").
  - apply mem_In. reflexivity.
  - reflexivity.
  - reflexivity.
  - reflexivity.
  - reflexivity.
  - apply replay_query.
  - reflexivity.
  - reflexivity.
  - apply replay_query.
  - apply replay_query.
Defined.

(** ** The flags, beyond one byte *)

Lemma length_zeros k : String.length (Py.zeros k) = k.
Proof. induction k as [|k IH]; simpl; [reflexivity|now rewrite IH]. Qed.

Lemma length_pad_left width s :
  String.length (Py.pad_left width s) = Nat.max width (String.length s).
Proof.
  unfold Py.pad_left. rewrite str_length_app, length_zeros. lia.
Qed.

(** X22.  [getFlags] loses nothing: for every reply that reads as a number
    [n >= 0], the string returned has eight characters or more, all binary
    digits, and spells [n]. *)
Theorem getFlags_spells_every_nonnegative_number
  {Dev : Type} `{Serial Dev} (d d' : Dev) (s : string) (n : Z) :
  query d "?F" = (Some s, d') ->
  Py.int s = Some n ->
  0 <= n ->
  exists bits,
    getFlags d = mkOutcome (Ok bits) d' [EvQuery "?F" (Some s)] /\
    (8 <= String.length bits)%nat /\
    bits_value bits = Some n.
Proof.
  intros Q P N. exists (Py.format_08b n).
  split; [now apply getFlags_answered|].
  split; [|now apply bits_value_format_08b].
  unfold Py.format_08b. destruct (Z.ltb_spec n 0); [lia|].
  rewrite length_pad_left. lia.
Qed.

Lemma getFlags_spells_every_nonnegative_number_witness :
  query (Dev:=Replay.t) ["1000"] "?F" = (Some "1000", []) /\
  Py.int "1000" = Some 1000 /\
  0 <= 1000 /\
  exists bits,
    getFlags (Dev:=Replay.t) ["1000"]
    = mkOutcome (Ok bits) [] [EvQuery "?F" (Some "1000")] /\
    (8 <= String.length bits)%nat /\
    bits_value bits = Some 1000.
Proof.
  assert (N : 0 <= 1000) by lia.
  split; [reflexivity|]. split; [reflexivity|]. split; [exact N|].
  exact (getFlags_spells_every_nonnegative_number (Dev:=Replay.t)
           ["1000"] [] "1000" 1000 (replay_query _ _ _) eq_refl N).
Defined.

(** ** The conversions at their edges *)

(** [int()] skips blanks around the literal, and the no-break space, but
    not the separator characters 28 to 31, which [split()] does take as
    separators. *)
Example int_skips_blanks_but_not_separators :
  Py.int (String (ascii_of_nat 9) "5 ") = Some 5 /\
  Py.int (String (ascii_of_nat 160) "5") = Some 5 /\
  Py.int (String (ascii_of_nat 28) "5") = None /\
  Py.int (String "5" (String (ascii_of_nat 31) "")) = None /\
  Py.split_ws (String "a" (String (ascii_of_nat 28) "b")) = ["a"; "b"].
Proof. repeat split. Qed.

(** [time.sleep] at and beyond the longest length that can be converted. *)
Example sleep_at_the_bounds :
  sleep_max = 9223372036 /\
  res (sleep (Dev:=Replay.t) 75 []) = Ok tt /\
  res (sleep (Dev:=Replay.t) (-1) []) = Raise ValueError /\
  res (sleep (Dev:=Replay.t) 9223372037 []) = Raise OverflowError /\
  res (sleep (Dev:=Replay.t) 100000000000000000001 []) = Raise OverflowError /\
  res (sleep (Dev:=Replay.t) (-9223372037) []) = Raise OverflowError.
Proof. repeat split. Qed.
